(** * MailMemGPT: classification-and-memory orchestration engine

    A shallow embedding of the classification, memory-assembly and
    tool-orchestration code of [src/utils/email_triage_manager.py],
    [src/utils/email_agent_v4.py], [src/utils/email_history_manager.py],
    [src/utils/email_tools.py] and [src/utils/prepare_system_prompt.py],
    with the external services (model completion, vector collections,
    relational store) taken as oracles.

    Conventions
    - Python [str] is [string]; a character is a code point below 256
      (Latin-1), so [lower] and [strip] follow Python on that range.
      Pictographs in printed and prompt text are left out.
    - Python [float] scores are rationals [Q]; the statements below never
      depend on rounding. [int(n * 0.4)] and [int(n * 0.6)] are [n * 2 / 5]
      and [n * 3 / 5], and [t > m * 0.6] is [m * 3 < t * 5].
    - A call that may raise returns [result A]; [try ... except Exception]
      is [try_except]. [print] appends an event to the state.
    - A dict keeps its insertion order and is a list of pairs; a set that
      is only searched is a list.
    - The relational store is two lists of rows in insertion order; a row
      carries the timestamp the store gave it. [ORDER BY timestamp DESC]
      is a stable sort; nothing below depends on how ties are ordered.
    - The [while] loop of [_generate_response] runs on fuel: [None] means
      that the fuel ran out before the loop ended. *)

From Stdlib Require Import String Ascii List Bool Arith ZArith QArith Lia.
From Stdlib Require Import DecimalString.
Set Warnings "-abstract-large-number".
Import ListNotations.
Local Close Scope Q_scope.
Local Open Scope nat_scope.
Local Open Scope string_scope.

(** ** Exceptions and state *)

Inductive result (A : Type) : Type :=
| Ok (a : A)
| Raise (e : string).
Arguments Ok {A} a.
Arguments Raise {A} e.

Section Monad.
Context {S : Type}.

Definition M (A : Type) : Type := S -> result A * S.

Definition ret {A} (a : A) : M A := fun s => (Ok a, s).

Definition raise {A} (e : string) : M A := fun s => (Raise e, s).

Definition bind {A B} (m : M A) (f : A -> M B) : M B :=
  fun s => match m s with
           | (Ok a, s') => f a s'
           | (Raise e, s') => (Raise e, s')
           end.

(** [try: m except Exception as e: h e] *)
Definition try_except {A} (m : M A) (h : string -> M A) : M A :=
  fun s => match m s with
           | (Ok a, s') => (Ok a, s')
           | (Raise e, s') => h e s'
           end.

Definition lift {A} (r : result A) : M A := fun s => (r, s).

Definition get : M S := fun s => (Ok s, s).
Definition put (s : S) : M unit := fun _ => (Ok tt, s).
Definition modify (f : S -> S) : M unit := fun s => (Ok tt, f s).
End Monad.
Arguments M S A : clear implicits.

Declare Scope monad_scope.
Delimit Scope monad_scope with monad.
Notation "x <- m ;; k" := (bind m (fun x => k))
  (at level 61, m at next level, right associativity) : monad_scope.
Notation "m ;;; k" := (bind m (fun _ => k))
  (at level 61, right associativity) : monad_scope.

(** ** Python strings on Latin-1 code points *)

Module PyStr.

Definition code (c : ascii) : nat := nat_of_ascii c.

(** [str.isspace] on one character. *)
Definition is_space (c : ascii) : bool :=
  let n := code c in
  (((9 <=? n) && (n <=? 13)) || ((28 <=? n) && (n <=? 32))
   || (n =? 133) || (n =? 160))%nat.

(** [str.lower] on one character. *)
Definition lower_char (c : ascii) : ascii :=
  let n := code c in
  if (((65 <=? n) && (n <=? 90))
      || ((192 <=? n) && (n <=? 222) && negb (n =? 215)))%nat
  then ascii_of_nat (n + 32) else c.

Fixpoint lower (s : string) : string :=
  match s with
  | EmptyString => EmptyString
  | String c s' => String (lower_char c) (lower s')
  end.

Fixpoint lstrip (s : string) : string :=
  match s with
  | EmptyString => EmptyString
  | String c s' => if is_space c then lstrip s' else s
  end.

(** [rstrip] keeps a character when it is not a space or when something
    survives to its right. *)
Fixpoint rstrip (s : string) : string :=
  match s with
  | EmptyString => EmptyString
  | String c s' =>
      match rstrip s' with
      | EmptyString => if is_space c then EmptyString else String c EmptyString
      | r => String c r
      end
  end.

Definition strip (s : string) : string := rstrip (lstrip s).

(** Truthiness of a [str]. *)
Definition truthy (s : string) : bool :=
  match s with EmptyString => false | _ => true end.

(** [s[:n]] *)
Fixpoint take (n : nat) (s : string) : string :=
  match n, s with
  | O, _ => EmptyString
  | _, EmptyString => EmptyString
  | S n', String c s' => String c (take n' s')
  end.

(** [s[n:]] *)
Fixpoint drop (n : nat) (s : string) : string :=
  match n, s with
  | O, _ => s
  | _, EmptyString => EmptyString
  | S n', String _ s' => drop n' s'
  end.

(** [s.startswith(p)] *)
Fixpoint starts_with (p s : string) : bool :=
  match p, s with
  | EmptyString, _ => true
  | String _ _, EmptyString => false
  | String a p', String b s' => Ascii.eqb a b && starts_with p' s'
  end.

(** [p in s] *)
Fixpoint contains (p s : string) : bool :=
  starts_with p s ||
  match s with
  | EmptyString => false
  | String _ s' => contains p s'
  end.

(** [sep.join(l)] *)
Fixpoint join (sep : string) (l : list string) : string :=
  match l with
  | [] => EmptyString
  | [x] => x
  | x :: l' => x ++ sep ++ join sep l'
  end.

(** [s.split(sep)] for a non-empty [sep]: occurrences are found from
    the left and do not overlap. [skip] counts the characters of a found
    separator still to be passed over. *)
Fixpoint split_go (sep : string) (skip : nat) (s : string) : list string :=
  match s with
  | EmptyString => [EmptyString]
  | String c s' =>
      match skip with
      | S k => split_go sep k s'
      | O =>
          if starts_with sep s
          then EmptyString :: split_go sep (String.length sep - 1) s'
          else match split_go sep 0 s' with
               | x :: r => String c x :: r
               | [] => [String c EmptyString]
               end
      end
  end.

Definition split (sep s : string) : list string := split_go sep 0 s.

Definition newline : ascii := ascii_of_nat 10.

(** The character [c] occurs in [s]. *)
Fixpoint has_char (c : ascii) (s : string) : bool :=
  match s with
  | EmptyString => false
  | String a s' => Ascii.eqb a c || has_char c s'
  end.

Definition no_newline (s : string) : bool := negb (has_char newline s).

(** Some character of [s] is not white space. *)
Fixpoint any_nonspace (s : string) : bool :=
  match s with
  | EmptyString => false
  | String c s' => negb (is_space c) || any_nonspace s'
  end.

(** [x in l] for a list (or set) of strings. *)
Definition mem (x : string) (l : list string) : bool :=
  existsb (String.eqb x) l.

End PyStr.

Definition nl : string := String (ascii_of_nat 10) EmptyString.

(** ** Shared data *)

(** The [email_data] dict: the three fields every caller supplies, the
    optional [email_id], and the two fields [process_email] writes. *)
Record email_data : Type := {
  sender : string;
  subject : string;
  body : string;
  email_id : option string;
  classification : option string;
  classification_confidence : option Q
}.

Definition Qlt_bool (a b : Q) : bool := negb (Qle_bool b a).

(** ** The classifier: [EmailTriageManager] *)

Module Triage.

(** What [classify_email] sees of one vector collection:
    [collection.count()] and the ['distances'] entry of
    [collection.query(query_texts=[email_text], n_results=n)]. *)
Record collection : Type := {
  count : result nat;
  query_distances : nat -> result (list (list Q))
}.

(** What the methods print. *)
Inductive event : Type :=
| ErrorSearching (category e : string)
| NoFewShotExamples
| LowConfidence (best_score threshold : Q)
| InvalidLLMClassification (llm_classification best_category : string)
| ClassifiedAs (best_category : string) (best_score : Q)
| InvalidClassification (classification : string)
| ErrorInLLMClassification (e : string).

Record manager : Type := {
  ignore_collection : collection;
  notify_collection : collection;
  respond_collection : collection;
  (** [self.rules_manager.get_rules], when a rules manager was built *)
  rules_manager : option (string -> result string);
  (** [self.client.chat.completions.create(...)] at temperature 0, giving
      [response.choices[0].message.content] (which may be [None]) *)
  chat_completion : string -> result (option string);
  (** [getattr(self.cfg, 'classification_confidence_threshold', 0.37)] *)
  classification_confidence_threshold : option Q
}.

Definition collections (self : manager) : list (string * collection) :=
  [("ignore", ignore_collection self);
   ("notify", notify_collection self);
   ("respond", respond_collection self)].

Definition labels : list string := ["ignore"; "notify"; "respond"].

Definition T := M (list event).

Definition print (e : event) : T unit := modify (fun l => (l ++ [e])%list).

Local Open Scope monad_scope.

Definition format_email (e : email_data) : string :=
  "From: " ++ sender e ++ nl ++ "Subject: " ++ subject e ++ nl
  ++ "Body: " ++ body e.

(** [sum(similarities) / len(similarities)] *)
Definition average (l : list Q) : Q :=
  (fold_left Qplus l 0 / inject_Z (Z.of_nat (length l)))%Q.

(** One iteration of the loop over [self.collections.items()]. *)
Definition category_score (category : string) (c : collection) : T Q :=
  try_except
    (n <- lift (count c) ;;
     if (n =? 0)%nat then ret 0%Q
     else
       results <- lift (query_distances c (Nat.min 3 n)) ;;
       match results with
       | distances :: _ =>
           if (0 <? length distances)%nat
           then ret (average (map (fun d => 1 - d)%Q distances))
           else ret 0%Q
       | [] => ret 0%Q
       end)
    (fun e => print (ErrorSearching category e) ;;; ret 0%Q).

Fixpoint category_scores_of (cs : list (string * collection))
  : T (list (string * Q)) :=
  match cs with
  | [] => ret []
  | (category, c) :: cs' =>
      s <- category_score category c ;;
      rest <- category_scores_of cs' ;;
      ret ((category, s) :: rest)
  end.

(** [max(category_scores, key=category_scores.get)]: the first key, in
    insertion order, whose score is maximal. *)
Fixpoint max_from (best : string * Q) (l : list (string * Q)) : string * Q :=
  match l with
  | [] => best
  | p :: l' => max_from (if Qlt_bool (snd best) (snd p) then p else best) l'
  end.

Definition max_key (l : list (string * Q)) : result (string * Q) :=
  match l with
  | [] => Raise "max() arg is an empty sequence"
  | p :: l' => Ok (max_from p l')
  end.


Definition default_ignore_rules : string :=
  "Spam, promotional emails, mass announcements, no action needed".
Definition default_notify_rules : string :=
  "Important information that user should know but doesn't need a response (e.g., system notifications, status updates)".
Definition default_respond_rules : string :=
  "Emails that need a direct response (e.g., questions, meeting requests, action items)".

Definition classification_prompt (ignore_rules notify_rules respond_rules : string)
           (e : email_data) : string :=
  "Classify this email into one category based on the following rules:" ++ nl ++ nl
  ++ "IGNORE rules: " ++ ignore_rules ++ nl ++ nl
  ++ "NOTIFY rules: " ++ notify_rules ++ nl ++ nl
  ++ "RESPOND rules: " ++ respond_rules ++ nl ++ nl
  ++ "Email:" ++ nl
  ++ "From: " ++ sender e ++ nl
  ++ "Subject: " ++ subject e ++ nl
  ++ "Body: " ++ PyStr.take 500 (body e) ++ nl ++ nl
  ++ "Respond with ONLY one word: ignore, notify, or respond".

Definition _classify_with_llm (self : manager) (e : email_data) : T string :=
  rules <- match rules_manager self with
           | Some get_rules =>
               i <- lift (get_rules "ignore_rules") ;;
               n <- lift (get_rules "notify_rules") ;;
               r <- lift (get_rules "respond_rules") ;;
               ret (i, n, r)
           | None =>
               ret (default_ignore_rules, default_notify_rules,
                    default_respond_rules)
           end ;;
  let '(ignore_rules, notify_rules, respond_rules) := rules in
  try_except
    (content <- lift (chat_completion self
                        (classification_prompt ignore_rules notify_rules
                                               respond_rules e)) ;;
     match content with
     | None => raise "'NoneType' object has no attribute 'strip'"
     | Some c =>
         let classification := PyStr.lower (PyStr.strip c) in
         if PyStr.mem classification labels then ret classification
         else print (InvalidClassification classification) ;;; ret "respond"
     end)
    (fun err => print (ErrorInLLMClassification err) ;;; ret "respond").

Definition confidence_threshold_of (self : manager) : Q :=
  match classification_confidence_threshold self with
  | Some t => t
  | None => 0.37%Q
  end.

(** [classify_email], with the call [self._classify_with_llm(email_data)]
    left open so that the validation after it can be stated for any
    return value. *)
Definition classify_email_with (classify_with_llm : T string)
           (self : manager) (e : email_data) : T (string * Q) :=
  category_scores <- category_scores_of (collections self) ;;
  if forallb (fun p => Qeq_bool (snd p) 0) category_scores then
    print NoFewShotExamples ;;;
    c <- classify_with_llm ;;
    ret (c, 0.5%Q)
  else
    best <- lift (max_key category_scores) ;;
    let '(best_category, best_score) := best in
    let confidence_threshold := confidence_threshold_of self in
    if Qlt_bool best_score confidence_threshold then
      print (LowConfidence best_score confidence_threshold) ;;;
      llm_classification <- classify_with_llm ;;
      if negb (PyStr.mem llm_classification labels) then
        print (InvalidLLMClassification llm_classification best_category) ;;;
        ret (best_category, best_score)
      else ret (llm_classification, best_score)
    else
      print (ClassifiedAs best_category best_score) ;;;
      ret (best_category, best_score).

Definition classify_email (self : manager) (e : email_data) : T (string * Q) :=
  classify_email_with (_classify_with_llm self e) self e.

(** The classification step of [EmailAgent.process_email]: the call, the
    validation of its label and the handler that defaults to
    [('respond', 0.5)]. *)
Definition process_email_classify (self : manager) (e : email_data)
  : T (string * Q) :=
  try_except
    (r <- classify_email self e ;;
     let '(classification, confidence) := r in
     if negb (PyStr.mem classification labels) then
       print (InvalidClassification classification) ;;;
       ret ("respond", 0.5%Q)
     else ret (classification, confidence))
    (fun _ => ret ("respond", 0.5%Q)).

(** The rule lookups of [_classify_with_llm] do not raise: there is no
    rules manager, or the relational store answers. *)
Definition rules_available (self : manager) : Prop :=
  match rules_manager self with
  | None => True
  | Some get_rules => forall k, exists v, get_rules k = Ok v
  end.

(** The three rule texts [_classify_with_llm] puts in its prompt: the
    built-in ones without a rules manager, else what the three lookups
    answer. *)
Definition rules_read (self : manager)
           (ignore_rules notify_rules respond_rules : string) : Prop :=
  match rules_manager self with
  | None =>
      ignore_rules = default_ignore_rules
      /\ notify_rules = default_notify_rules
      /\ respond_rules = default_respond_rules
  | Some get_rules =>
      get_rules "ignore_rules" = Ok ignore_rules
      /\ get_rules "notify_rules" = Ok notify_rules
      /\ get_rules "respond_rules" = Ok respond_rules
  end.

(** Every distance a collection reports lies between 0 and 1. *)
Definition unit_distances (c : collection) : Prop :=
  forall n ds d,
    query_distances c n = Ok ds -> In d (hd [] ds) -> (0 <= d /\ d <= 1)%Q.

Definition is_invalid_llm_event (ev : event) : bool :=
  match ev with
  | InvalidLLMClassification _ _ => true
  | _ => false
  end.

(** Sample inputs. *)
Definition one_pool (d : Q) : collection :=
  {| count := Ok 1; query_distances := fun _ => Ok [[d]] |}.

Definition empty_pool : collection :=
  {| count := Ok 0; query_distances := fun _ => Ok [] |}.

(** Three pools whose nearest examples are all farther than distance 1
    (squared L2 distances between unit vectors range over [0,4]). *)
Definition far_manager : manager :=
  {| ignore_collection := one_pool 1.5%Q;
     notify_collection := one_pool 1.75%Q;
     respond_collection := one_pool 2%Q;
     rules_manager := None;
     chat_completion := fun _ => Ok (Some "notify");
     classification_confidence_threshold := None |}.

Definition empty_manager : manager :=
  {| ignore_collection := empty_pool;
     notify_collection := empty_pool;
     respond_collection := empty_pool;
     rules_manager := None;
     chat_completion := fun _ => Ok (Some " Ignore ");
     classification_confidence_threshold := None |}.

Definition weak_manager : manager :=
  {| ignore_collection := one_pool 0.75%Q;
     notify_collection := one_pool 0.875%Q;
     respond_collection := empty_pool;
     rules_manager := None;
     chat_completion := fun _ => Ok (Some "maybe");
     classification_confidence_threshold := None |}.


(** No examples, and a rules manager whose store does not answer. *)
Definition locked_rules_manager : manager :=
  {| ignore_collection := empty_pool;
     notify_collection := empty_pool;
     respond_collection := empty_pool;
     rules_manager := Some (fun _ => Raise "database is locked");
     chat_completion := fun _ => Ok (Some "notify");
     classification_confidence_threshold := None |}.

(** No rules manager, and a model call that fails. *)
Definition offline_manager : manager :=
  {| ignore_collection := empty_pool;
     notify_collection := empty_pool;
     respond_collection := empty_pool;
     rules_manager := None;
     chat_completion := fun _ => Raise "Connection error.";
     classification_confidence_threshold := None |}.

End Triage.

Definition hello : email_data :=
  {| sender := "a@x"; subject := "Hi"; body := "Hello";
     email_id := None; classification := None;
     classification_confidence := None |}.

(** ** Memory assembly: deduplication and summarization *)

Module Memory.

(** Truthiness of a variable that is [None] or a [str]. *)
Definition truthy_opt (o : option string) : bool :=
  match o with
  | Some s => PyStr.truthy s
  | None => false
  end.

Definition blank (s : string) : bool :=
  negb (PyStr.truthy s) || negb (PyStr.truthy (PyStr.strip s)).

(** [line.split(field)[1].split('\n')[0].strip()], or the [IndexError]
    of the first subscript. *)
Definition field_after (field line : string) : option string :=
  match nth_error (PyStr.split field line) 1 with
  | Some part => Some (PyStr.strip (hd EmptyString (PyStr.split nl part)))
  | None => None
  end.

(** What the loop over the lines of the SQL history keeps. *)
Record seen : Type := {
  sql_identifiers : list string;
  sql_subject_sender_pairs : list (string * string);
  current_subject : option string;
  current_sender : option string
}.

Definition nothing_seen : seen :=
  {| sql_identifiers := []; sql_subject_sender_pairs := [];
     current_subject := None; current_sender := None |}.

Definition see_subject (line : string) (k : seen) : seen :=
  if PyStr.contains "subject:" (PyStr.lower line) then
    match field_after "Subject:" line with
    | Some subject =>
        if PyStr.truthy subject then
          {| sql_identifiers :=
               (sql_identifiers k
                ++ [("subject:" ++ PyStr.lower subject)%string])%list;
             sql_subject_sender_pairs := sql_subject_sender_pairs k;
             current_subject := Some (PyStr.lower subject);
             current_sender := current_sender k |}
        else k
    | None => k
    end
  else k.

Definition see_sender (line : string) (k : seen) : seen :=
  if PyStr.contains "from:" (PyStr.lower line) then
    match field_after "From:" line with
    | Some sender_ =>
        if PyStr.truthy sender_ then
          {| sql_identifiers :=
               (sql_identifiers k
                ++ [("sender:" ++ PyStr.lower sender_)%string])%list;
             sql_subject_sender_pairs :=
               match current_subject k with
               | Some cs =>
                   if PyStr.truthy cs
                   then (sql_subject_sender_pairs k
                         ++ [(cs, PyStr.lower sender_)])%list
                   else sql_subject_sender_pairs k
               | None => sql_subject_sender_pairs k
               end;
             current_subject := current_subject k;
             current_sender := Some (PyStr.lower sender_) |}
        else k
    | None => k
    end
  else k.

Definition see_email_prefix (line : string) (k : seen) : seen :=
  if PyStr.contains "email:" (PyStr.lower line) then
    match current_subject k with
    | Some cs =>
        if PyStr.truthy cs then
          {| sql_identifiers :=
               (sql_identifiers k ++ [("email_subject:" ++ cs)%string])%list;
             sql_subject_sender_pairs := sql_subject_sender_pairs k;
             current_subject := current_subject k;
             current_sender := current_sender k |}
        else k
    | None => k
    end
  else k.

Definition see_line (k : seen) (line : string) : seen :=
  see_email_prefix line (see_sender line (see_subject line k)).

Definition scan_history (sql_history : string) : seen :=
  fold_left see_line (PyStr.split nl sql_history) nothing_seen.

(** The subject and sender of one section: the last line carrying each
    marker decides; a line whose marker is not in the exact case leaves
    the variable as it was. *)
Definition section_field (marker_lower field : string)
           (acc : option string) (line : string) : option string :=
  if PyStr.contains marker_lower (PyStr.lower line) then
    match field_after field line with
    | Some v => Some (PyStr.lower v)
    | None => acc
    end
  else acc.

Definition section_subject (section : string) : option string :=
  fold_left (section_field "subject:" "Subject:") (PyStr.split nl section) None.

Definition section_sender (section : string) : option string :=
  fold_left (section_field "from:" "From:") (PyStr.split nl section) None.

(** The test of one identifier against a section. *)
Definition identifier_hits (section_lower identifier : string) : bool :=
  PyStr.truthy identifier
  && (1 <? List.length (PyStr.split ":" identifier))%nat
  && match nth_error (PyStr.split ":" identifier) 1 with
     | Some identifier_value => PyStr.contains identifier_value section_lower
     | None => false
     end.

Definition pair_eqb (a b : string * string) : bool :=
  String.eqb (fst a) (fst b) && String.eqb (snd a) (snd b).

Definition is_duplicate (k : seen) (section : string) : bool :=
  let section_lower := PyStr.lower section in
  existsb (identifier_hits section_lower) (sql_identifiers k)
  || (truthy_opt (section_subject section)
      && truthy_opt (section_sender section)
      && match section_subject section, section_sender section with
         | Some ss, Some sd =>
             existsb (pair_eqb (ss, sd)) (sql_subject_sender_pairs k)
         | _, _ => false
         end)
  || (truthy_opt (current_subject k) && truthy_opt (current_sender k)
      && match current_subject k, current_sender k with
         | Some cs, Some cd =>
             PyStr.contains cs section_lower && PyStr.contains cd section_lower
         | _, _ => false
         end).

Definition marker : string := "Relevant Past Email".

(** The sections that survive the filter, without the marker. *)
Definition kept_sections (sql_history vectordb_memory : string)
  : list string :=
  filter (fun section =>
            negb (negb (PyStr.truthy (PyStr.strip section)))
            && negb (is_duplicate (scan_history sql_history) section))
         (PyStr.split marker vectordb_memory).

Definition _deduplicate_memory (sql_history vectordb_memory : string)
  : string * string :=
  if blank vectordb_memory then (sql_history, EmptyString)
  else if blank sql_history then (EmptyString, vectordb_memory)
  else
    let filtered_sections :=
      map (fun section => marker ++ section)
          (kept_sections sql_history vectordb_memory) in
    match filtered_sections with
    | [] => (sql_history, EmptyString)
    | _ => (sql_history, PyStr.join nl filtered_sections)
    end.

(** The sections of a text made by joining [l] with newlines: each
    section but the last has taken the newline of the join. *)
Fixpoint with_separators (l : list string) : list string :=
  match l with
  | [] => []
  | [x] => [x]
  | x :: l' => (x ++ nl) :: with_separators l'
  end.

(** The filtered recall set, in the words of the specification: the
    recalled emails a recall text holds, in their order. These are its
    sections at the marker, each without the white space around it; a
    section of white space only holds no email. *)
Definition recall_set (memory : string) : list string :=
  map PyStr.strip
      (filter (fun section => PyStr.truthy (PyStr.strip section))
              (PyStr.split marker memory)).

Definition no_newline_opt (o : option string) : bool :=
  match o with
  | Some s => PyStr.no_newline s
  | None => true
  end.

(** Nothing kept from the history spans a line. *)
Definition single_line (k : seen) : Prop :=
  Forall (fun i => PyStr.no_newline i = true) (sql_identifiers k)
  /\ no_newline_opt (current_subject k) = true
  /\ no_newline_opt (current_sender k) = true.

(** Sample inputs: a history with one email, a recall of three past
    emails the first of which is that email. *)
Definition sample_history : string :=
  "email: From: ops@x" ++ nl ++ "Subject: Status Update" ++ nl
  ++ "Body: all good, response: ok".

Definition sample_recall : string :=
  "Relevant Past Email 1:" ++ nl ++ "email: From: ops@x" ++ nl
  ++ "Subject: Status Update" ++ nl ++ nl
  ++ "Relevant Past Email 2:" ++ nl ++ "email: From: bob@y" ++ nl
  ++ "Subject: Lunch" ++ nl ++ nl
  ++ "Relevant Past Email 3:" ++ nl ++ "email: From: eve@z" ++ nl
  ++ "Subject: Invoice" ++ nl.

End Memory.

(** ** JSON values: the arguments of a tool call *)

#[local] Unset Elimination Schemes.
Inductive json : Type :=
| JNull
| JBool (b : bool)
| JInt (z : Z)
| JStr (s : string)
| JList (l : list json)
| JDict (d : list (string * json)).
#[local] Set Elimination Schemes.

Fixpoint json_eqb (a b : json) {struct a} : bool :=
  let fix list_eqb (l1 l2 : list json) {struct l1} : bool :=
    match l1, l2 with
    | [], [] => true
    | x :: l1', y :: l2' => json_eqb x y && list_eqb l1' l2'
    | _, _ => false
    end in
  let fix dict_eqb (d1 d2 : list (string * json)) {struct d1} : bool :=
    match d1, d2 with
    | [], [] => true
    | (k1, x) :: d1', (k2, y) :: d2' =>
        String.eqb k1 k2 && json_eqb x y && dict_eqb d1' d2'
    | _, _ => false
    end in
  match a, b with
  | JNull, JNull => true
  | JBool x, JBool y => Bool.eqb x y
  | JInt x, JInt y => Z.eqb x y
  | JStr x, JStr y => String.eqb x y
  | JList x, JList y => list_eqb x y
  | JDict x, JDict y => dict_eqb x y
  | _, _ => false
  end.

(** A dict with string keys, in insertion order. *)
Definition kwargs : Type := list (string * json).

Fixpoint lookup (k : string) (d : kwargs) : option json :=
  match d with
  | [] => None
  | (k', v) :: d' => if String.eqb k k' then Some v else lookup k d'
  end.

Definition string_of_nat (n : nat) : string :=
  DecimalString.NilEmpty.string_of_uint (Nat.to_uint n).

(** ** The tools: [EmailTools] *)

Module EmailTools.

Section WithFormat.
(** [format(v)] of a value that is not a [str], as an f-string
    renders it. *)
Variable py_format : json -> string.

Definition fmt (v : json) : string :=
  match v with
  | JStr s => s
  | _ => py_format v
  end.

(** [len(v)] *)
Definition len (v : json) : result nat :=
  match v with
  | JStr s => Ok (String.length s)
  | JList l => Ok (List.length l)
  | JDict d => Ok (List.length d)
  | JNull => Raise "object of type 'NoneType' has no len()"
  | JBool _ => Raise "object of type 'bool' has no len()"
  | JInt _ => Raise "object of type 'int' has no len()"
  end.

(** Binding the keyword arguments unpacked from [function_args] to
    the parameters [params], none of which has a default: every key must name a parameter and every
    parameter must be given. *)
Definition bind_kwargs (fname : string) (params : list string)
           (args : kwargs) : result (list json) :=
  match find (fun kv => negb (PyStr.mem (fst kv) params)) args with
  | Some (k, _) =>
      Raise (fname ++ "() got an unexpected keyword argument '" ++ k ++ "'")
  | None =>
      match find (fun p => match lookup p args with
                           | None => true
                           | Some _ => false
                           end) params with
      | Some p =>
          Raise (fname ++ "() missing required positional argument: '"
                 ++ p ++ "'")
      | None =>
          Ok (map (fun p => match lookup p args with
                            | Some v => v
                            | None => JNull
                            end) params)
      end
  end.

Definition write_email_tool (args : kwargs) : result (string * string) :=
  match bind_kwargs "write_email_tool" ["to"; "subject"; "content"] args with
  | Ok [to; subject; content] =>
      let email_text :=
        "To: " ++ fmt to ++ nl ++ "Subject: " ++ fmt subject ++ nl ++ nl
        ++ fmt content in
      Ok ("Function call successful.", "Email prepared:" ++ nl ++ email_text)
  | Ok _ => Raise "write_email_tool() takes 3 arguments"
  | Raise e => Raise e
  end.

Definition schedule_meeting_tool (args : kwargs)
  : result (string * string) :=
  match bind_kwargs "schedule_meeting_tool"
          ["attendees"; "subject"; "duration_minutes"; "preferred_day"]
          args with
  | Ok [attendees; subject; duration_minutes; preferred_day] =>
      match len attendees with
      | Ok n =>
          Ok ("Function call successful.",
              "Meeting '" ++ fmt subject ++ "' scheduled for "
              ++ fmt preferred_day ++ " with " ++ string_of_nat n
              ++ " attendees for " ++ fmt duration_minutes ++ " minutes")
      | Raise e => Raise e
      end
  | Ok _ => Raise "schedule_meeting_tool() takes 4 arguments"
  | Raise e => Raise e
  end.

Definition check_calendar_availability_tool (args : kwargs)
  : result (string * string) :=
  match bind_kwargs "check_calendar_availability_tool" ["day"] args with
  | Ok [day] =>
      Ok ("Function call successful.",
          "Available times on " ++ fmt day ++ ": 9:00 AM, 2:00 PM, 4:00 PM")
  | Ok _ => Raise "check_calendar_availability_tool() takes 1 argument"
  | Raise e => Raise e
  end.
End WithFormat.

End EmailTools.

(** ** The system prompt: [prepare_system_prompt_for_email_agent] *)

Module Prompt.

Definition dq : string := String (ascii_of_nat 34) EmptyString.

Definition or_default (v default : string) : string :=
  if PyStr.truthy v then v else default.

Definition default_agent_instructions : string :=
  "Use these tools when appropriate to help manage tasks efficiently. Generate professional, courteous email responses.".

Definition functions_block : string :=
  "    ## You have access to the following functions:" ++ nl ++ nl
  ++ "    1. **search_vector_db(query: str)**: Search past email conversations using semantic search" ++ nl
  ++ "       - Use this when you need additional context from previous emails beyond what's already loaded" ++ nl
  ++ "       - Example: " ++ dq ++ "search_vector_db('meeting with Alice last week')" ++ dq ++ nl
  ++ "       - Note: Relevant emails are already loaded below, use this only for specific queries" ++ nl ++ nl
  ++ "    2. **add_user_info_to_database(user_info: dict)**: Update user information" ++ nl
  ++ "       - Use this when email contains user details that need updating" ++ nl ++ nl
  ++ "    3. **write_email_tool(to: str, subject: str, content: str)**: Write and send emails" ++ nl
  ++ "       - Use this to compose and send email responses" ++ nl
  ++ "       - Example: " ++ dq ++ "write_email_tool('alice@company.com', 'Re: API Documentation', 'Thank you for...')" ++ dq ++ nl ++ nl
  ++ "    4. **schedule_meeting_tool(attendees: list, subject: str, duration_minutes: int, preferred_day: str)**: Schedule calendar meetings" ++ nl
  ++ "       - Use this when emails contain meeting requests" ++ nl
  ++ "       - Example: " ++ dq ++ "schedule_meeting_tool(['alice@company.com'], 'API Discussion', 30, 'Monday')" ++ dq ++ nl ++ nl
  ++ "    5. **check_calendar_availability_tool(day: str)**: Check calendar availability" ++ nl
  ++ "       - Use this before scheduling meetings" ++ nl
  ++ "       - Example: " ++ dq ++ "check_calendar_availability_tool('Monday')" ++ dq ++ nl ++ nl
  ++ "    ## IMPORTANT: You are responsible for generating email responses and function calling." ++ nl
  ++ "    - If you call a function, the result will appear below." ++ nl
  ++ "    - If the result confirms that the function was successful, don't call it again with the same arguments." ++ nl
  ++ "    - You can also check the email history to see if you already called the function." ++ nl
  ++ "    - There is no limit on function calls - use tools as needed to complete the task." ++ nl.

Definition response_instructions : string :=
  "    ## Instructions for Email Response:" ++ nl
  ++ "    - Generate a professional, courteous email response" ++ nl
  ++ "    - Address all points mentioned in the incoming email" ++ nl
  ++ "    - Use the context from past emails (above) to provide accurate and relevant responses" ++ nl
  ++ "    - Keep the response concise but complete" ++ nl
  ++ "    - Use appropriate email formatting and tone" ++ nl
  ++ "    - If the email requires scheduling or calendar actions, use the appropriate tools" ++ nl
  ++ "    ".

Definition vectordb_section (vectordb_memory : option string) : string :=
  match vectordb_memory with
  | Some m =>
      if PyStr.truthy m && PyStr.truthy (PyStr.strip m) then
        nl ++ "    ## Relevant Past Emails (from VectorDB Semantic Memory):" ++ nl
        ++ "    " ++ m ++ nl
        ++ "    " ++ nl
        ++ "    Note: These are semantically similar past emails retrieved automatically. Use this context to provide more accurate responses."
        ++ nl ++ "    "
      else EmptyString
  | None => EmptyString
  end.

Definition prepare_system_prompt_for_email_agent
           (user_info email_summary email_history
            function_call_result_section agent_instructions : string)
           (vectordb_memory : option string) : string :=
  "## You are a professional email assistant of the following user." ++ nl ++ nl
  ++ "    " ++ or_default user_info "No user information available." ++ nl ++ nl
  ++ "    ## Agent Instructions:" ++ nl
  ++ "    " ++ or_default agent_instructions default_agent_instructions ++ nl ++ nl
  ++ functions_block
  ++ "    " ++ nl
  ++ "    " ++ function_call_result_section ++ nl ++ nl
  ++ "    ## Here is a summary of the previous email conversation history:" ++ nl ++ nl
  ++ "    " ++ or_default email_summary "No previous email summary available." ++ nl ++ nl
  ++ "    ## Here is the previous email conversation between you and the user:" ++ nl ++ nl
  ++ "    " ++ or_default email_history "No previous email history available." ++ nl
  ++ "    " ++ vectordb_section vectordb_memory ++ nl
  ++ response_instructions.

End Prompt.

(** ** The agent: [EmailAgent] and [EmailHistoryManager] *)

Module Agent.

(** One entry of the in-memory window [email_history]:
    [{"email": email_data}] or [{"response": response_text}]. *)
Inductive entry : Type :=
| EmailEntry (e : email_data)
| ResponseEntry (r : option string)
(** a dict with both keys, as written back by [summarize_email_history] *)
| SummarizedPair (email response : json).

(** A row of the [email_history] table. *)
Record history_row : Type := {
  row_user_id : option nat;
  row_timestamp : nat;
  row_email_id : string;
  row_sender : string;
  row_subject : string;
  row_email_body : string;
  row_response_text : string;
  row_session_id : string;
  row_classification : option string;
  row_classification_confidence : option Q
}.

(** A row of the [summary] table. *)
Record summary_row : Type := {
  sum_user_id : option nat;
  sum_session_id : string;
  sum_summary_text : string;
  sum_timestamp : nat
}.

(** What a chat completion gives back in [response.choices[0].message].
    The arguments of a function call arrive as JSON text; [json.loads]
    either fails, or yields a dict, or yields some other value. *)
Inductive parsed_arguments : Type :=
| ArgsDict (d : kwargs)
| ArgsOther (v : json)
| ArgsInvalid (err : string).

Inductive message : Type :=
| Content (c : string)
| FunctionCall (name : string) (arguments : parsed_arguments)
| Neither.

Inductive event : Type :=
| Print (msg : string)
(** a chat completion was requested: with or without [functions],
    with this system prompt *)
| Completion (with_functions : bool) (system_prompt : string)
(** a tool was invoked *)
| Invoked (function_name : string) (function_args : kwargs).

(** Everything the agent and its history manager own or write to. *)
Record state : Type := {
  log : list event;
  email_history : list entry;
  pairs_since_last_summary : nat;
  history_table : list history_row;
  summary_table : list summary_row;
  vector_store : list string;
  (** number of calls made so far to an external service *)
  calls : nat
}.

Definition set_log (f : list event -> list event) (s : state) : state :=
  {| log := f (log s); email_history := email_history s;
     pairs_since_last_summary := pairs_since_last_summary s;
     history_table := history_table s; summary_table := summary_table s;
     vector_store := vector_store s; calls := calls s |}.

Definition set_email_history (h : list entry) (s : state) : state :=
  {| log := log s; email_history := h;
     pairs_since_last_summary := pairs_since_last_summary s;
     history_table := history_table s; summary_table := summary_table s;
     vector_store := vector_store s; calls := calls s |}.

Definition set_pairs_since_last_summary (n : nat) (s : state) : state :=
  {| log := log s; email_history := email_history s;
     pairs_since_last_summary := n;
     history_table := history_table s; summary_table := summary_table s;
     vector_store := vector_store s; calls := calls s |}.

Definition set_history_table (t : list history_row) (s : state) : state :=
  {| log := log s; email_history := email_history s;
     pairs_since_last_summary := pairs_since_last_summary s;
     history_table := t; summary_table := summary_table s;
     vector_store := vector_store s; calls := calls s |}.

Definition set_summary_table (t : list summary_row) (s : state) : state :=
  {| log := log s; email_history := email_history s;
     pairs_since_last_summary := pairs_since_last_summary s;
     history_table := history_table s; summary_table := t;
     vector_store := vector_store s; calls := calls s |}.

Definition set_vector_store (v : list string) (s : state) : state :=
  {| log := log s; email_history := email_history s;
     pairs_since_last_summary := pairs_since_last_summary s;
     history_table := history_table s; summary_table := summary_table s;
     vector_store := v; calls := calls s |}.

Definition set_calls (n : nat) (s : state) : state :=
  {| log := log s; email_history := email_history s;
     pairs_since_last_summary := pairs_since_last_summary s;
     history_table := history_table s; summary_table := summary_table s;
     vector_store := vector_store s; calls := n |}.

(** The configuration and the external services. Each service is asked
    with the number of the call, so that it may answer differently each
    time. *)
Record env : Type := {
  user_id : option nat;
  session_id : string;
  max_tokens : nat;
  max_history_pairs : nat;
  (** [getattr(self.cfg, 'max_prompt_tokens', 12000)] *)
  max_prompt_tokens : option nat;
  user_info : string;
  (** [Utils.count_number_of_tokens] *)
  count_number_of_tokens : string -> result nat;
  (** [str(self.email_history)] *)
  repr_history : list entry -> string;
  (** [format(v)] of a tool argument *)
  py_format : json -> string;
  (** [traceback.format_exc()] for the exception being handled *)
  format_exc : string -> string;
  (** the clock of the relational store, [CURRENT_TIMESTAMP] *)
  current_timestamp : nat -> nat;
  (** the chat model: call number, with functions?, system prompt,
      user message *)
  chat_model : nat -> bool -> string -> string -> result message;
  (** the summary model: call number, prompt; the content may be [None] *)
  summary_model : nat -> string -> result (option string);
  (** the summary model asked for JSON pairs by
      [summarize_email_history], after [json.loads] and validation *)
  summarized_pairs : nat -> list entry -> result (list (json * json));
  (** an [execute_query] that fails, by call number *)
  sql_fault : nat -> option string;
  (** a vector-store call that fails, by call number *)
  vector_fault : nat -> option string;
  (** [db_collection.query(query_texts=[q], n_results=n)]['documents'][0] *)
  vector_query : nat -> string -> nat -> list string;
  (** [VectorDBManager.search_vector_db] *)
  search_vector_db : nat -> kwargs -> result (string * string);
  (** [UserManager.add_user_info_to_database] *)
  add_user_info_to_database : nat -> kwargs -> result (string * string);
  (** [rules_manager.get_rules('agent_instructions')] *)
  agent_instructions : nat -> result string
}.

Definition A := M state.

Local Open Scope monad_scope.

Definition print (msg : string) : A unit :=
  modify (set_log (fun l => (l ++ [Print msg])%list)).

Definition emit (ev : event) : A unit :=
  modify (set_log (fun l => (l ++ [ev])%list)).

(** Take the number of the next external call. *)
Definition next_call : A nat :=
  s <- get ;;
  put (set_calls (S (calls s)) s) ;;;
  ret (calls s).

Definition success : string := "Function call successful.".
Definition failed : string := "Function call failed.".

Section WithEnv.
Variable self : env.

(** Invoke a tool: the invocation is recorded, then the tool runs. *)
Definition invoke (function_name : string) (function_args : kwargs)
           (tool : kwargs -> result (string * string))
  : A (string * string) :=
  emit (Invoked function_name function_args) ;;;
  lift (tool function_args).

(** One [elif] arm of [execute_function_call]: the tool in its own
    [try], the handler building the failure pair. *)
Definition guarded (function_name : string) (function_args : kwargs)
           (tool : kwargs -> result (string * string)) (what : string)
  : A (string * string) :=
  try_except
    (invoke function_name function_args tool)
    (fun e =>
       let error_msg := what ++ e in
       print error_msg ;;;
       ret (failed, error_msg)).

Definition execute_function_call (function_name : string)
           (function_args : kwargs) : A (string * string) :=
  try_except
    (if String.eqb function_name "search_vector_db" then
       n <- next_call ;;
       guarded function_name function_args (search_vector_db self n)
               "Error searching VectorDB: "
     else if String.eqb function_name "add_user_info_to_database" then
       n <- next_call ;;
       guarded function_name function_args
               (add_user_info_to_database self n)
               "Error updating user info: "
     else if String.eqb function_name "write_email_tool" then
       guarded function_name function_args
               (EmailTools.write_email_tool (py_format self))
               "Error writing email: "
     else if String.eqb function_name "schedule_meeting_tool" then
       guarded function_name function_args
               (EmailTools.schedule_meeting_tool (py_format self))
               "Error scheduling meeting: "
     else if String.eqb function_name "check_calendar_availability_tool" then
       guarded function_name function_args
               (EmailTools.check_calendar_availability_tool (py_format self))
               "Error checking calendar: "
     else
       let error_msg := "Unknown function: " ++ function_name in
       print error_msg ;;;
       ret (failed, error_msg))
    (fun e =>
       let error_msg :=
         "Unexpected error executing function " ++ function_name
         ++ ": " ++ e in
       print error_msg ;;;
       print (format_exc self e) ;;;
       ret (failed, error_msg)).

(** The tool behind a function name, with the prefix of its failure
    message; [n] is the number of the call for the two tools that
    reach an external service. *)
Definition underlying_tool (n : nat) (function_name : string)
  : option ((kwargs -> result (string * string)) * string) :=
  if String.eqb function_name "search_vector_db" then
    Some (search_vector_db self n, "Error searching VectorDB: ")
  else if String.eqb function_name "add_user_info_to_database" then
    Some (add_user_info_to_database self n, "Error updating user info: ")
  else if String.eqb function_name "write_email_tool" then
    Some (EmailTools.write_email_tool (py_format self),
          "Error writing email: ")
  else if String.eqb function_name "schedule_meeting_tool" then
    Some (EmailTools.schedule_meeting_tool (py_format self),
          "Error scheduling meeting: ")
  else if String.eqb function_name "check_calendar_availability_tool" then
    Some (EmailTools.check_calendar_availability_tool (py_format self),
          "Error checking calendar: ")
  else None.

(** The contract of the tool surface, for the two tools that live
    outside this code: a returned status is one of the two markers. *)
Definition tools_return_markers : Prop :=
  forall n args status detail,
    (search_vector_db self n args = Ok (status, detail) ->
     status = success \/ status = failed)
    /\ (add_user_info_to_database self n args = Ok (status, detail) ->
        status = success \/ status = failed).

(** *** [EmailHistoryManager] *)

(** Truthiness of [self.user_id]. *)
Definition has_user : bool :=
  match user_id self with
  | Some (S _) => true
  | _ => false
  end.

(** [l[-n:]]; with [n = 0] that is the whole list. *)
Definition last_n {X} (n : nat) (l : list X) : list X :=
  match n with
  | O => l
  | _ => skipn (List.length l - n) l
  end.

(** [l[:-n]] for [n > 0]. *)
Definition all_but_last_n {X} (n : nat) (l : list X) : list X :=
  firstn (List.length l - n) l.

(** [ORDER BY timestamp DESC]: a stable insertion sort. *)
Fixpoint insert_desc {X} (key : X -> nat) (x : X) (l : list X) : list X :=
  match l with
  | [] => [x]
  | y :: l' =>
      if (key y <=? key x)%nat then x :: l
      else y :: insert_desc key x l'
  end.

Fixpoint order_by_desc {X} (key : X -> nat) (l : list X) : list X :=
  match l with
  | [] => []
  | x :: l' => insert_desc key x (order_by_desc key l')
  end.


(** [self.sql_manager.execute_query]: one call to the store, which
    may fail. *)
Definition execute_query {X} (run : nat -> state -> X * state) : A X :=
  n <- next_call ;;
  match sql_fault self n with
  | Some e => raise e
  | None =>
      s <- get ;;
      let (x, s') := run n s in
      put s' ;;;
      ret x
  end.

Definition email_id_taken (id : string) (t : list history_row) : bool :=
  existsb (fun r => String.eqb (row_email_id r) id) t.

(** The [INSERT] of [save_to_db]. The table declares [response_text]
    [NOT NULL] and [email_id] [UNIQUE]; [execute_query] is taken to
    pass the store's errors on. *)
Definition save_to_db (e : email_data) (response : option string)
  : A unit :=
  if negb has_user then print "Error: No user found in the database."
  else
    let id := match email_id e with Some i => i | None => "" end in
    s <- get ;;
    match response with
    | None =>
        _ <- next_call ;;
        raise "NOT NULL constraint failed: email_history.response_text"
    | Some response_text =>
    if email_id_taken id (history_table s) then
      _ <- next_call ;;
      raise "UNIQUE constraint failed: email_history.email_id"
    else
      execute_query (fun n s =>
        (tt, set_history_table
               (history_table s ++
                [{| row_user_id := user_id self;
                    row_timestamp := current_timestamp self n;
                    row_email_id := id;
                    row_sender := sender e;
                    row_subject := subject e;
                    row_email_body := body e;
                    row_response_text := response_text;
                    row_session_id := session_id self;
                    row_classification := classification e;
                    row_classification_confidence :=
                      classification_confidence e |}])%list s))
    end.

Definition summarize_email_history : A unit :=
  s <- get ;;
  let pairs_to_summarize := all_but_last_n 2 (email_history s) in
  if (List.length pairs_to_summarize =? 0)%nat then ret tt
  else
    try_except
      (n <- next_call ;;
       pairs <- lift (summarized_pairs self n pairs_to_summarize) ;;
       s <- get ;;
       put (set_email_history
              (map (fun p => SummarizedPair (fst p) (snd p)) pairs
               ++ last_n 2 (email_history s))%list s) ;;;
       print "Email history summarized.")
      (fun e => print ("Failed to summarize email history: " ++ e)).

Definition add_to_history (e : email_data) (response_text : option string)
           (max_history_pairs : nat) : A unit :=
  modify (fun s => set_email_history
                     (email_history s
                      ++ [EmailEntry e; ResponseEntry response_text])%list s) ;;;
  s <- get ;;
  (if (max_history_pairs * 2 <? List.length (email_history s))%nat
   then put (set_email_history
               (last_n (max_history_pairs * 2) (email_history s)) s)
   else ret tt) ;;;
  save_to_db e response_text ;;;
  modify (fun s => set_pairs_since_last_summary
                     (pairs_since_last_summary s + 1) s) ;;;
  print "Email history saved to database." ;;;
  s <- get ;;
  email_history_token_count <-
    lift (count_number_of_tokens self (repr_history self (email_history s))) ;;
  if (max_tokens self <? email_history_token_count)%nat then
    print "Summarizing the email history ..." ;;;
    print ("Old number of tokens: " ++ string_of_nat email_history_token_count) ;;;
    summarize_email_history ;;;
    s <- get ;;
    email_history_token_count <-
      lift (count_number_of_tokens self (repr_history self (email_history s))) ;;
    print ("New number of tokens: " ++ string_of_nat email_history_token_count)
  else ret tt.

Definition session_rows (s : state) : list history_row :=
  filter (fun r => String.eqb (row_session_id r) (session_id self))
         (history_table s).

Definition session_summaries (s : state) : list summary_row :=
  filter (fun r => String.eqb (sum_session_id r) (session_id self))
         (summary_table s).

(** The rows selected by the query of [get_latest_email_pairs],
    reversed. *)
Definition latest_email_pairs (num_pairs : nat) (s : state)
  : list (string * string) :=
  rev (map (fun r => (row_email_body r, row_response_text r))
           (firstn (num_pairs * 2)
                   (order_by_desc row_timestamp (session_rows s)))).

Definition get_latest_email_pairs (num_pairs : nat)
  : A (list (string * string)) :=
  execute_query (fun _ s => (latest_email_pairs num_pairs s, s)).

(** The row selected by the query of [get_latest_summary]. *)
Definition latest_summary (s : state) : option string :=
  match firstn 1 (order_by_desc sum_timestamp (session_summaries s)) with
  | r :: _ => Some (sum_summary_text r)
  | [] => None
  end.

Definition get_latest_summary : A (option string) :=
  execute_query (fun _ s => (latest_summary s, s)).

Definition new_summary_row (summary_text : string) (n : nat)
  : summary_row :=
  {| sum_user_id := user_id self;
     sum_session_id := session_id self;
     sum_summary_text := summary_text;
     sum_timestamp := current_timestamp self n |}.

Definition save_summary_to_db (summary_text : string) : A unit :=
  if negb has_user || negb (PyStr.truthy summary_text) then ret tt
  else
    execute_query (fun n s =>
      (tt, set_summary_table
             (summary_table s ++ [new_summary_row summary_text n])%list s)) ;;;
    print "Summary saved to database.".

Definition summary_prompt (pairs : list (string * string))
           (previous_summary : option string) : string :=
  "Summarize the following email conversations:" ++ nl ++ nl
  ++ match previous_summary with
     | Some p =>
         if PyStr.truthy p
         then "Previous summary:" ++ nl ++ p ++ nl ++ nl
         else ""
     | None => ""
     end
  ++ String.concat ""
       (map (fun p => "Email: " ++ fst p ++ nl ++ "Response: " ++ snd p
                      ++ nl ++ nl) pairs)
  ++ "Provide a concise summary while keeping important details.".

Definition generate_the_new_summary (pairs : list (string * string))
           (previous_summary : option string) : A (option string) :=
  match pairs with
  | [] => ret None
  | _ =>
      try_except
        (n <- next_call ;;
         lift (summary_model self n (summary_prompt pairs previous_summary)))
        (fun e => print ("Error generating summary: " ++ e) ;;; ret None)
  end.


Definition update_email_summary (max_history_pairs : nat) : A unit :=
  s <- get ;;
  print ("pairs_since_last_summary: "
         ++ string_of_nat (pairs_since_last_summary s)) ;;;
  if (pairs_since_last_summary s <? max_history_pairs)%nat then ret tt
  else
    pairs <- get_latest_email_pairs max_history_pairs ;;
    previous_summary <- get_latest_summary ;;
    if (List.length pairs <=? max_history_pairs)%nat then
      print "Insufficient email data. Skipping summary."
    else
      summary_text <- generate_the_new_summary pairs previous_summary ;;
      match summary_text with
      | Some text =>
          if PyStr.truthy text then
            save_summary_to_db text ;;;
            modify (set_pairs_since_last_summary 0) ;;;
            print "Email history summary generated and saved to database."
          else ret tt
      | None => ret tt
      end.

(** *** Memory of the agent *)

Definition email_query (e : email_data) : string :=
  "From: " ++ sender e ++ nl ++ "Subject: " ++ subject e ++ nl
  ++ "Body: " ++ PyStr.take 200 (body e).

(** The comprehension over [enumerate(results['documents'][0])]. *)
Fixpoint memories_from (i : nat) (docs : list string) : list string :=
  match docs with
  | [] => []
  | doc :: docs' =>
      if PyStr.truthy doc && PyStr.truthy (PyStr.strip doc)
      then ("Relevant Past Email " ++ string_of_nat (i + 1) ++ ":" ++ nl
            ++ doc ++ nl) :: memories_from (S i) docs'
      else memories_from (S i) docs'
  end.

Definition _load_memory_from_vectordb (e : email_data) (max_results : nat)
  : A string :=
  try_except
    (n <- next_call ;;
     match vector_fault self n with
     | Some err => raise err
     | None =>
         let docs := vector_query self n (email_query e) max_results in
         if (0 <? List.length docs)%nat then
           let memories := memories_from 0 docs in
           match memories with
           | [] => ret ""
           | _ =>
               print ("Loaded " ++ string_of_nat (List.length memories)
                      ++ " relevant emails from VectorDB") ;;;
               ret (PyStr.join nl memories)
           end
         else
           print "No relevant emails found in VectorDB" ;;; ret ""
     end)
    (fun err =>
       print ("Error loading memory from VectorDB: " ++ err) ;;;
       print (format_exc self err) ;;;
       ret "").

Definition _check_token_limit (text : string) (max_tokens : nat) : A bool :=
  try_except
    (token_count <- lift (count_number_of_tokens self text) ;;
     ret (max_tokens <? token_count)%nat)
    (fun err =>
       print ("Error counting tokens: " ++ err) ;;;
       ret (max_tokens * 4 <? String.length text)%nat).

Definition truncation_marker : string :=
  nl ++ nl ++ "[... truncated middle section ...]" ++ nl ++ nl.

(** The fallback of [_summarize_memory]. [int(len * 0.4)] and
    [int(len * 0.6)] are the integer parts of two fifths and three
    fifths of the length. *)
Definition truncate_middle (memory_text : string) : string :=
  let n := String.length memory_text in
  if (2000 <? n)%nat then
    PyStr.take (n * 2 / 5) memory_text ++ truncation_marker
    ++ PyStr.drop (n * 3 / 5) memory_text
  else memory_text.

Definition memory_summary_prompt (excerpt : string) (target_tokens : nat)
  : string :=
  "Summarize the following email memory to reduce token count while keeping the most important context and key information:"
  ++ nl ++ nl ++ excerpt ++ nl ++ nl
  ++ "Provide a concise summary focusing on:" ++ nl
  ++ "- Key topics and subjects discussed" ++ nl
  ++ "- Important decisions or agreements" ++ nl
  ++ "- Action items or follow-ups" ++ nl
  ++ "- Critical details that might be needed for future responses"
  ++ nl ++ nl
  ++ "Keep the summary under " ++ string_of_nat target_tokens
  ++ " tokens while preserving essential context.".

(** [_summarize_memory]. The token count of the reply is taken for the
    message that is printed; a reply without content makes that count
    raise, which leads to the fallback. *)
Definition _summarize_memory (memory_text : string) : A string :=
  if negb (PyStr.truthy memory_text) then ret ""
  else
    try_except
      (token_count <- lift (count_number_of_tokens self memory_text) ;;
       let target_tokens := max_tokens self / 2 in
       let chars_to_include :=
         Nat.min (String.length memory_text) (target_tokens * 4) in
       n <- next_call ;;
       content <- lift (summary_model self n
                          (memory_summary_prompt
                             (PyStr.take chars_to_include memory_text)
                             target_tokens)) ;;
       match content with
       | None => raise "expected string or buffer"
       | Some summarized =>
           new_count <- lift (count_number_of_tokens self summarized) ;;
           print ("Memory summarized: " ++ string_of_nat token_count
                  ++ " tokens -> " ++ string_of_nat new_count ++ " tokens") ;;;
           ret summarized
       end)
      (fun err =>
         print ("Error summarizing memory with LLM: " ++ err) ;;;
         if (2000 <? String.length memory_text)%nat then
           let truncated := truncate_middle memory_text in
           print ("Using truncated memory fallback: "
                  ++ string_of_nat (String.length memory_text)
                  ++ " chars -> "
                  ++ string_of_nat (String.length truncated) ++ " chars") ;;;
           ret truncated
         else ret memory_text).

(** *** The generation loop: [_generate_response] *)

(** The local variable [function_args]: not yet assigned, a dict, or
    another JSON value. *)
Inductive bound_args : Type :=
| ArgsUnbound
| BoundDict (d : kwargs)
| BoundOther (v : json).

Definition signature : Type := string * kwargs.

Record loop_state : Type := {
  function_call_result_section : string;
  function_call_state : option string;
  finished : bool;                      (* [email_state == "finished"] *)
  function_call_count : nat;
  function_call_history : list signature;
  function_name : option string;
  function_args : bound_args;
  function_call_result : option string;
  combined_history : string
}.

(** What one pass of the loop body ends with. *)
Inductive control : Type :=
| Return (response : option string)
| Continue (ls : loop_state).

(** [sorted(function_args.items())]: the keys of a dict differ, so
    the items are ordered by key. *)
Fixpoint insert_item (kv : string * json) (l : kwargs) : kwargs :=
  match l with
  | [] => [kv]
  | kv' :: l' =>
      if String.leb (fst kv) (fst kv') then kv :: l
      else kv' :: insert_item kv l'
  end.

Definition sorted_items (d : kwargs) : kwargs :=
  fold_right insert_item [] d.

Definition signature_eqb (a b : signature) : bool :=
  String.eqb (fst a) (fst b) && json_eqb (JDict (snd a)) (JDict (snd b)).

Definition items (a : bound_args) : result kwargs :=
  match a with
  | BoundDict d => Ok d
  | BoundOther _ => Raise "object has no attribute 'items'"
  | ArgsUnbound =>
      Raise "cannot access local variable 'function_args' where it is not associated with a value"
  end.

Definition bound (what : string) (v : option string) : result string :=
  match v with
  | Some x => Ok x
  | None =>
      Raise ("cannot access local variable '" ++ what
             ++ "' where it is not associated with a value")
  end.

Definition format_items (d : kwargs) : string :=
  String.concat ""
    (map (fun kv => "  - " ++ fst kv ++ ": "
                    ++ EmailTools.fmt (py_format self) (snd kv) ++ nl) d).

Definition loop_note (function_name : string) : string :=
  "# Function Call Loop Detected." ++ nl ++ nl
  ++ "                                The function `" ++ function_name
  ++ "` was called repeatedly with the same arguments." ++ nl
  ++ "                                Please conclude the email response based on the available information.".

Definition user_message_of (e : email_data) : string :=
  "From: " ++ sender e ++ nl ++ "Subject: " ++ subject e ++ nl ++ nl
  ++ body e.

Definition rendered (response : option string) : string :=
  match response with
  | Some r => r
  | None => "None"
  end.

(** [update_vector_db(msg_pair)] then [refresh_vector_db_client()]. *)
Definition save_to_vectordb (msg_pair : string) : A unit :=
  n <- next_call ;;
  match vector_fault self n with
  | Some err => raise err
  | None =>
      modify (fun s => set_vector_store
                         (vector_store s ++ [msg_pair])%list s) ;;;
      m <- next_call ;;
      match vector_fault self m with
      | Some err => raise err
      | None => ret tt
      end
  end.

(** The head of the loop body: what the outcome of the previous tool
    call does to the state and to the function-result section. *)
Definition fold_tool_outcome (ls : loop_state) : A loop_state :=
  match function_call_state ls with
  | None => ret ls
  | Some st =>
      if String.eqb st success then
        name <- lift (bound "function_name" (function_name ls)) ;;
        (if String.eqb name "add_user_info_to_database" then
           try_except
             (n <- next_call ;;
              match sql_fault self n with
              | Some err => raise err
              | None => ret tt
              end)
             (fun err => print ("Error refreshing user info: " ++ err))
         else ret tt) ;;;
        args <- lift (items (function_args ls)) ;;
        result <- lift (bound "function_call_result"
                              (function_call_result ls)) ;;
        print "************************************" ;;;
        print result ;;;
        print "************************************" ;;;
        ret {| function_call_result_section :=
                 "## Function Call Executed" ++ nl ++ nl
                 ++ "- The assistant just called the function `" ++ name
                 ++ "` in response to the email." ++ nl
                 ++ "- Arguments provided:" ++ nl
                 ++ format_items args
                 ++ "- Outcome: " ++ st ++ nl ++ nl
                 ++ "Please proceed with the email response using the new context."
                 ++ nl ++ nl ++ result;
               function_call_state := function_call_state ls;
               finished := true;
               function_call_count := function_call_count ls;
               function_call_history := function_call_history ls;
               function_name := function_name ls;
               function_args := function_args ls;
               function_call_result := function_call_result ls;
               combined_history := combined_history ls |}
      else if String.eqb st failed then
        name <- lift (bound "function_name" (function_name ls)) ;;
        args <- lift (items (function_args ls)) ;;
        result <- lift (bound "function_call_result"
                              (function_call_result ls)) ;;
        ret {| function_call_result_section :=
                 "## Function Call Attempted" ++ nl ++ nl
                 ++ "- The assistant attempted to call `" ++ name
                 ++ "` with the following arguments:" ++ nl
                 ++ format_items args
                 ++ "- Outcome: " ++ st ++ " - " ++ result ++ nl ++ nl
                 ++ "Please assist based on this result.";
               function_call_state := function_call_state ls;
               finished := finished ls;
               function_call_count := function_call_count ls;
               function_call_history := function_call_history ls;
               function_name := function_name ls;
               function_args := function_args ls;
               function_call_result := function_call_result ls;
               combined_history := combined_history ls |}
      else ret ls
  end.

Definition with_tool_outcome (name : string) (args : bound_args)
           (count : nat) (history : list signature)
           (st result : string) (ls : loop_state) : loop_state :=
  {| function_call_result_section := function_call_result_section ls;
     function_call_state := Some st;
     finished := finished ls;
     function_call_count := count;
     function_call_history := history;
     function_name := Some name;
     function_args := args;
     function_call_result := Some result;
     combined_history := combined_history ls |}.

Definition with_loop_detected (name : string) (args : bound_args)
           (count : nat) (ls : loop_state) : loop_state :=
  {| function_call_result_section := loop_note name;
     function_call_state := function_call_state ls;
     finished := true;
     function_call_count := count;
     function_call_history := function_call_history ls;
     function_name := Some name;
     function_args := args;
     function_call_result := function_call_result ls;
     combined_history := combined_history ls |}.

Definition with_combined_history (h : string) (ls : loop_state)
  : loop_state :=
  {| function_call_result_section := function_call_result_section ls;
     function_call_state := function_call_state ls;
     finished := finished ls;
     function_call_count := function_call_count ls;
     function_call_history := function_call_history ls;
     function_name := function_name ls;
     function_args := function_args ls;
     function_call_result := function_call_result ls;
     combined_history := h |}.

Definition prompt_limit : nat :=
  match max_prompt_tokens self with
  | Some n => n
  | None => 12000
  end.

Definition or_none (s : string) : option string :=
  if PyStr.truthy s then Some s else None.

(** The system prompt of one pass, after the check of its size. *)
Definition build_system_prompt (previous_summary : string)
           (filtered_vectordb_memory user_message : string)
           (ls : loop_state) : A (loop_state * string) :=
  agent_instructions <-
    try_except
      (n <- next_call ;; lift (agent_instructions self n))
      (fun err =>
         print ("Error loading agent instructions: " ++ err) ;;;
         ret Prompt.default_agent_instructions) ;;
  let system_prompt :=
    Prompt.prepare_system_prompt_for_email_agent
      (user_info self) previous_summary (combined_history ls)
      (function_call_result_section ls) agent_instructions
      (or_none filtered_vectordb_memory) in
  try_except
    (total_prompt_tokens <-
       lift (count_number_of_tokens self (system_prompt ++ user_message)) ;;
     if (prompt_limit <? total_prompt_tokens)%nat then
       print "Final prompt token limit exceeded. Truncating..." ;;;
       history_tokens <-
         lift (count_number_of_tokens self (combined_history ls)) ;;
       if (prompt_limit * 3 <? history_tokens * 5)%nat then
         summarized <- _summarize_memory (combined_history ls) ;;
         ret (with_combined_history summarized ls,
              Prompt.prepare_system_prompt_for_email_agent
                (user_info self) previous_summary summarized
                (function_call_result_section ls) agent_instructions
                (Some EmptyString))
       else ret (ls, system_prompt)
     else ret (ls, system_prompt))
    (fun err =>
       print ("Error checking final prompt tokens: " ++ err) ;;;
       ret (ls, system_prompt)).

(** Both stores are written after an answer was generated; each write
    has its own handler. [summarize] tells whether the summary is
    brought up to date after the history. *)
Definition persist (e : email_data) (user_message : string)
           (assistant_response : option string) (summarize : bool)
           (what : string) : A (bool * bool) :=
  sql_save_success <-
    try_except
      (add_to_history e assistant_response (max_history_pairs self) ;;;
       (if summarize then update_email_summary (max_history_pairs self)
        else ret tt) ;;;
       print (what ++ " saved to SQL DB") ;;;
       ret true)
      (fun err =>
         print ("Error updating SQL DB memory: " ++ err) ;;;
         print (format_exc self err) ;;;
         ret false) ;;
  vectordb_save_success <-
    try_except
      (save_to_vectordb ("email: " ++ user_message ++ ", response: "
                         ++ rendered assistant_response) ;;;
       print (what ++ " saved to VectorDB") ;;;
       ret true)
      (fun err =>
         print ("Error updating VectorDB memory: " ++ err) ;;;
         print (format_exc self err) ;;;
         ret false) ;;
  ret (sql_save_success, vectordb_save_success).

Definition sentinel : string :=
  "Error: Response generation completed without generating a response. Please try again.".

(** The branch taken when the reply carries content. *)
Definition on_content (e : email_data) (user_message : string)
           (assistant_response : string) : A control :=
  saved <- persist e user_message (Some assistant_response) true "Email" ;;
  (if negb (fst saved)
   then print "WARNING: Email response generated but NOT saved to SQL DB"
   else ret tt) ;;;
  (if negb (snd saved)
   then print "WARNING: Email response generated but NOT saved to VectorDB"
   else ret tt) ;;;
  ret (Return (Some assistant_response)).

(** A function call requested while the state is [finished]: a second
    completion without functions, whose content is returned. *)
Definition on_call_when_finished (e : email_data)
           (system_prompt user_message : string) : A control :=
  print "Email state is finished, generating final response..." ;;;
  try_except
    (n <- next_call ;;
     emit (Completion false system_prompt) ;;;
     fallback_response <-
       lift (chat_model self n false system_prompt user_message) ;;
     let assistant_response :=
       match fallback_response with
       | Content c => Some c
       | _ => None
       end in
     saved <- persist e user_message assistant_response false
                      "Fallback response" ;;
     (if negb (fst saved) || negb (snd saved)
      then print "WARNING: Fallback response generated but not fully saved"
      else ret tt) ;;;
     ret (Return assistant_response))
    (fun err =>
       print ("Error in fallback response: " ++ err) ;;;
       ret (Return (Some ("Error: Failed to generate fallback response. "
                          ++ err)))).

(** A function call requested while the state is [thinking]. *)
Definition on_function_call (name : string) (arguments : parsed_arguments)
           (ls : loop_state) : A control :=
  let count := function_call_count ls + 1 in
  match arguments with
  | ArgsInvalid err =>
      print ("Error parsing function arguments: " ++ err) ;;;
      ret (Continue (with_tool_outcome name (function_args ls) count
                       (function_call_history ls) failed
                       ("Invalid function arguments: " ++ err) ls))
  | ArgsOther v =>
      let err := "object has no attribute 'items'" in
      print ("Error processing function call: " ++ err) ;;;
      ret (Continue (with_tool_outcome name (BoundOther v) count
                       (function_call_history ls) failed err ls))
  | ArgsDict d =>
      let function_call_signature := (name, sorted_items d) in
      if existsb (signature_eqb function_call_signature)
                 (function_call_history ls)
      then
        print ("Detected function call loop: " ++ name
               ++ " with same arguments. Breaking loop...") ;;;
        ret (Continue (with_loop_detected name (BoundDict d) count ls))
      else
        let history :=
          (function_call_history ls ++ [function_call_signature])%list in
        print ("Function name that was requested by the LLM: " ++ name) ;;;
        print ("Function arguments: " ++ format_items d) ;;;
        outcome <-
          try_except
            (execute_function_call name d)
            (fun err =>
               print ("Error executing function " ++ name ++ ": " ++ err) ;;;
               ret (failed, err)) ;;
        ret (Continue (with_tool_outcome name (BoundDict d) count history
                         (fst outcome) (snd outcome) ls))
  end.

(** One pass of the body of [while email_state != "finished"]. *)
Definition loop_body (e : email_data) (previous_summary : string)
           (filtered_vectordb_memory user_message : string)
           (ls : loop_state) : A control :=
  try_except
    (ls1 <- fold_tool_outcome ls ;;
     built <- build_system_prompt previous_summary
                                  filtered_vectordb_memory user_message ls1 ;;
     let '(ls2, system_prompt) := built in
     print ("System prompt length: "
            ++ string_of_nat (String.length system_prompt) ++ " characters") ;;;
     print ("Email State: "
            ++ if finished ls2 then "finished" else "thinking") ;;;
     n <- next_call ;;
     emit (Completion true system_prompt) ;;;
     match chat_model self n true system_prompt user_message with
     | Raise err =>
         print ("Error calling LLM API: " ++ err) ;;;
         ret (Return (Some ("Error: Failed to generate response. " ++ err)))
     | Ok (Content c) =>
         if PyStr.truthy c then on_content e user_message c
         else
           print "No valid response from LLM (no content or function call)" ;;;
           ret (Return (Some "Warning: No valid assistant response. Please try again."))
     | Ok (FunctionCall name arguments) =>
         if finished ls2
         then on_call_when_finished e system_prompt user_message
         else on_function_call name arguments ls2
     | Ok Neither =>
         print "No valid response from LLM (no content or function call)" ;;;
         ret (Return (Some "Warning: No valid assistant response. Please try again."))
     end)
    (fun err =>
       let error_msg :=
         "Error in while loop: " ++ err ++ nl ++ format_exc self err in
       print error_msg ;;;
       ret (Return (Some error_msg))).

(** The [while] loop; [None] when [fuel] passes did not end it. *)
Fixpoint run_loop (fuel : nat) (e : email_data) (previous_summary : string)
         (filtered_vectordb_memory user_message : string)
         (ls : loop_state) : A (option (option string)) :=
  if finished ls then ret (Some (Some sentinel))
  else
    match fuel with
    | O => ret None
    | S fuel' =>
        c <- loop_body e previous_summary filtered_vectordb_memory
                       user_message ls ;;
        match c with
        | Return response => ret (Some response)
        | Continue ls' =>
            run_loop fuel' e previous_summary filtered_vectordb_memory
                     user_message ls'
        end
    end.

Definition initial_loop_state (combined_history : string) : loop_state :=
  {| function_call_result_section := EmptyString;
     function_call_state := None;
     finished := false;
     function_call_count := 0;
     function_call_history := [];
     function_name := None;
     function_args := ArgsUnbound;
     function_call_result := None;
     combined_history := combined_history |}.

Definition history_text (h : option (list entry)) : string :=
  match h with
  | Some (x :: l) => repr_history self (x :: l)
  | _ => EmptyString
  end.

(** The memory assembled before the loop: the latest summary, the
    combined history and the filtered recall. *)
Definition assemble_memory (e : email_data)
  : A (string * string * string) :=
  loaded <-
    try_except
      (s <- get ;;
       previous_summary <- get_latest_summary ;;
       ret (Some (email_history s),
            match previous_summary with Some p => p | None => EmptyString end))
      (fun err =>
         print ("Error loading SQL DB memory: " ++ err) ;;;
         ret (None, EmptyString)) ;;
  let '(history, previous_summary) := loaded in
  print "Loading memory from VectorDB..." ;;;
  vectordb_memory <-
    try_except
      (_load_memory_from_vectordb e 5)
      (fun err =>
         print ("Error loading VectorDB memory: " ++ err) ;;; ret "") ;;
  print "Deduplicating memory (removing duplicates between SQL DB and VectorDB)..." ;;;
  let deduplicated :=
    Memory._deduplicate_memory (history_text history) vectordb_memory in
  try_except
    (exceeded <- _check_token_limit (fst deduplicated) (max_tokens self) ;;
     if exceeded then
       print "Token limit exceeded. Summarizing memory..." ;;;
       summarized <- _summarize_memory vectordb_memory ;;
       let again :=
         Memory._deduplicate_memory (history_text history) summarized in
       ret (previous_summary, fst again, snd again)
     else ret (previous_summary, fst deduplicated, snd deduplicated))
    (fun err =>
       print ("Error checking token limit: " ++ err) ;;;
       ret (previous_summary, fst deduplicated, snd deduplicated)).

Definition _generate_response (fuel : nat) (e : email_data)
  : A (option (option string)) :=
  memory <- assemble_memory e ;;
  let '(previous_summary, combined_history, filtered_vectordb_memory) :=
    memory in
  run_loop fuel e previous_summary filtered_vectordb_memory
           (user_message_of e) (initial_loop_state combined_history).

End WithEnv.

(** *** Sample inputs *)

Definition initial_state : state :=
  {| log := []; email_history := []; pairs_since_last_summary := 0;
     history_table := []; summary_table := []; vector_store := [];
     calls := 0 |}.

Definition mail (id sender_ subject_ body_ : string) : email_data :=
  {| sender := sender_; subject := subject_; body := body_;
     email_id := Some id; classification := Some "respond";
     classification_confidence := Some 0.5%Q |}.

Definition sample_repr (h : list entry) : string :=
  String.concat ", "
    (map (fun x => match x with
                   | EmailEntry e => body e
                   | ResponseEntry (Some r) => r
                   | ResponseEntry None => "None"
                   | SummarizedPair _ _ => "summary"
                   end) h).

(** A configuration with [max_history_pairs = 2], a chat model given
    by [chat], stores that answer unless [vfault] says otherwise. *)
Definition sample_env
           (chat : nat -> bool -> string -> string -> result message)
           (vfault : nat -> option string) : env :=
  {| user_id := Some 1;
     session_id := "session-1";
     max_tokens := 1000;
     max_history_pairs := 2;
     max_prompt_tokens := None;
     user_info := "John";
     count_number_of_tokens := fun s => Ok (String.length s / 4);
     repr_history := sample_repr;
     py_format := fun _ => "?";
     format_exc := fun e => "Traceback: " ++ e;
     current_timestamp := fun n => n;
     chat_model := chat;
     summary_model := fun _ _ => Ok (Some "Digest of the conversation so far.");
     summarized_pairs := fun _ _ => Raise "Invalid format received from LLM.";
     sql_fault := fun _ => None;
     vector_fault := vfault;
     vector_query := fun _ _ _ => [];
     search_vector_db := fun _ _ => Ok (success, "No results.");
     add_user_info_to_database := fun _ _ => Raise "no such column";
     agent_instructions := fun _ => Ok "Be brief." |}.

Definition polite_chat : nat -> bool -> string -> string -> result message :=
  fun _ _ _ _ => Ok (Content "Thank you, noted.").

Definition quiet_env : env := sample_env polite_chat (fun _ => None).

(** A chat model that, whenever it may call functions, asks for the
    same call, and otherwise answers. *)
Definition insisting_chat (name : string) (args : kwargs)
  : nat -> bool -> string -> string -> result message :=
  fun _ with_functions _ _ =>
    if with_functions then Ok (FunctionCall name (ArgsDict args))
    else Ok (Content "Monday at 9:00 AM works for me.").

Definition monday : kwargs := [("day", JStr "Monday")].

Definition monday_by_date : kwargs := [("date", JStr "Monday")].

(** The model keeps asking for
    [check_calendar_availability_tool(date="Monday")]: the tool takes
    [day], so each call raises and is reported as failed. *)
Definition failing_tool_env : env :=
  sample_env (insisting_chat "check_calendar_availability_tool"
                             monday_by_date)
             (fun _ => None).

(** The model keeps asking for
    [check_calendar_availability_tool(day="Monday")], which succeeds. *)
Definition succeeding_tool_env : env :=
  sample_env (insisting_chat "check_calendar_availability_tool" monday)
             (fun _ => None).

(** The vector store is down; everything else answers. *)
Definition vector_down_env : env :=
  sample_env polite_chat (fun _ => Some "vector store unavailable").

Definition mail1 : email_data := mail "1" "ann@x" "One" "first".



(** The system prompts of the completions requested, in order, and
    whether functions were offered. *)
Definition completions (l : list event) : list (bool * string) :=
  flat_map (fun ev => match ev with
                      | Completion f p => [(f, p)]
                      | _ => []
                      end) l.

Definition invocations (l : list event) : list (string * kwargs) :=
  flat_map (fun ev => match ev with
                      | Invoked n a => [(n, a)]
                      | _ => []
                      end) l.

Definition printed (msg : string) (l : list event) : bool :=
  existsb (fun ev => match ev with
                     | Print m => String.eqb m msg
                     | _ => false
                     end) l.

(** One handled email as [_generate_response] records it: the pair is
    added to the history, then the summary is brought up to date. *)
Definition record_pair (self : env) (e : email_data) (r : string) : A unit :=
  bind (add_to_history self e (Some r) (max_history_pairs self))
       (fun _ => update_email_summary self (max_history_pairs self)).

End Agent.

(** * Properties *)

Ltac red_match := cbv beta iota zeta.

Ltac unfold_monad :=
  unfold bind, ret, raise, lift, try_except, modify, get, put in *.

Module TriageFacts.
Import Triage.
Local Open Scope monad_scope.
Arguments PyStr.mem : simpl never.

(** *** The generative fallback *)

Lemma mem_labels (l : string) :
  PyStr.mem l labels = true <-> In l labels.
Proof.
  unfold PyStr.mem. rewrite existsb_exists. split.
  - intros (x & Hin & Heq). apply String.eqb_eq in Heq. now subst.
  - intros Hin. exists l. split; [assumption | apply String.eqb_refl].
Qed.

Lemma respond_is_label : PyStr.mem "respond" labels = true.
Proof. reflexivity. Qed.

(** The [try] block of [_classify_with_llm], for any three rule texts. *)
Lemma llm_try_block_label (self : manager) (e : email_data) (p : string)
      (s s' : list event) (l : string) :
  try_except
    (content <- lift (chat_completion self p) ;;
     match content with
     | None => raise "'NoneType' object has no attribute 'strip'"
     | Some c =>
         let classification := PyStr.lower (PyStr.strip c) in
         if PyStr.mem classification labels then ret classification
         else print (InvalidClassification classification) ;;; ret "respond"
     end)
    (fun err => print (ErrorInLLMClassification err) ;;; ret "respond") s
  = (Ok l, s') ->
  PyStr.mem l labels = true.
Proof.
  unfold print. unfold_monad.
  destruct (chat_completion self p) as [[c|]|err]; cbn.
  - destruct (PyStr.mem (PyStr.lower (PyStr.strip c)) labels) eqn:Hm; cbn;
      intros H; inversion H; subst; auto.
  - intros H; inversion H; reflexivity.
  - intros H; inversion H; reflexivity.
Qed.

Lemma classify_with_llm_label (self : manager) (e : email_data)
      (s s' : list event) (l : string) :
  _classify_with_llm self e s = (Ok l, s') -> PyStr.mem l labels = true.
Proof.
  unfold _classify_with_llm.
  destruct (rules_manager self) as [get_rules|].
  - unfold bind at 1. unfold bind at 1. unfold lift at 1.
    destruct (get_rules "ignore_rules") as [i|?]; [|discriminate].
    unfold bind at 1. unfold lift at 1.
    destruct (get_rules "notify_rules") as [n|?]; [|discriminate].
    unfold bind at 1. unfold lift at 1.
    destruct (get_rules "respond_rules") as [r|?]; [|discriminate].
    unfold ret at 1. apply llm_try_block_label; assumption.
  - unfold bind at 1. unfold ret at 1. apply llm_try_block_label; assumption.
Qed.

Lemma classify_with_llm_returns (self : manager) (e : email_data)
      (s : list event) :
  rules_available self ->
  exists l s', _classify_with_llm self e s = (Ok l, s').
Proof.
  unfold rules_available, _classify_with_llm. intros Hr.
  assert (Htry : forall p,
    exists l s',
      try_except
        (content <- lift (chat_completion self p) ;;
         match content with
         | None => raise "'NoneType' object has no attribute 'strip'"
         | Some c =>
             let classification := PyStr.lower (PyStr.strip c) in
             if PyStr.mem classification labels then ret classification
             else print (InvalidClassification classification) ;;;
                  ret "respond"
         end)
        (fun err => print (ErrorInLLMClassification err) ;;; ret "respond") s
      = (Ok l, s')).
  { intros p. unfold print. unfold_monad.
    destruct (chat_completion self p) as [[c|]|err]; red_match; eauto.
    destruct (PyStr.mem _ labels); red_match; eauto. }
  destruct (rules_manager self) as [get_rules|].
  - destruct (Hr "ignore_rules") as [i Hi].
    destruct (Hr "notify_rules") as [n Hn].
    destruct (Hr "respond_rules") as [r Hrr].
    unfold bind at 1. unfold bind at 1. unfold lift at 1. rewrite Hi.
    unfold bind at 1. unfold lift at 1. rewrite Hn.
    unfold bind at 1. unfold lift at 1. rewrite Hrr.
    unfold ret at 1. apply Htry.
  - unfold bind at 1. unfold ret at 1. apply Htry.
Qed.

(** *** The pool scores *)


Lemma category_score_empty (category : string) (c : collection)
      (s : list event) :
  count c = Ok 0 -> category_score category c s = (Ok 0%Q, s).
Proof.
  intros H. unfold category_score. unfold_monad. now rewrite H.
Qed.

Lemma category_score_no_invalid (category : string) (c : collection)
      (s s' : list event) (r : result Q) :
  category_score category c s = (r, s') ->
  existsb is_invalid_llm_event s' = existsb is_invalid_llm_event s.
Proof.
  unfold category_score, print. unfold_monad.
  destruct (count c) as [n|err]; red_match.
  - destruct (n =? 0)%nat; [intros H; now inversion H|].
    destruct (query_distances c (Nat.min 3 n)) as [[|d ds]|err]; red_match;
      try (intros H; now inversion H).
    + destruct (0 <? length d)%nat; intros H; now inversion H.
    + intros H; inversion H; subst. rewrite existsb_app. red_match.
      now rewrite !orb_false_r.
  - intros H; inversion H; subst. rewrite existsb_app. red_match.
    now rewrite !orb_false_r.
Qed.

Lemma category_scores_of_no_invalid (cs : list (string * collection)) :
  forall s r s',
    category_scores_of cs s = (r, s') ->
    existsb is_invalid_llm_event s' = existsb is_invalid_llm_event s.
Proof.
  induction cs as [|[category c] cs IH]; intros s r s'; cbn [category_scores_of].
  - unfold ret. intros H; now inversion H.
  - unfold bind at 1.
    destruct (category_score category c s) as [[q|err] s1] eqn:Hq.
    + unfold bind at 1.
      destruct (category_scores_of cs s1) as [[rest|err] s2] eqn:Hrest;
        unfold ret; intros H; inversion H; subst;
        rewrite (IH _ _ _ Hrest); eapply category_score_no_invalid; eauto.
    + intros H; inversion H; subst.
      eapply category_score_no_invalid; eauto.
Qed.

Lemma classify_with_llm_no_invalid (self : manager) (e : email_data)
      (s s' : list event) (r : result string) :
  _classify_with_llm self e s = (r, s') ->
  existsb is_invalid_llm_event s' = existsb is_invalid_llm_event s.
Proof.
  unfold _classify_with_llm.
  assert (Htry : forall p r s',
    try_except
      (content <- lift (chat_completion self p) ;;
       match content with
       | None => raise "'NoneType' object has no attribute 'strip'"
       | Some c =>
           let classification := PyStr.lower (PyStr.strip c) in
           if PyStr.mem classification labels then ret classification
           else print (InvalidClassification classification) ;;;
                ret "respond"
       end)
      (fun err => print (ErrorInLLMClassification err) ;;; ret "respond") s
    = (r, s') ->
    existsb is_invalid_llm_event s' = existsb is_invalid_llm_event s).
  { intros p r0 s0. unfold print. unfold_monad.
    destruct (chat_completion self p) as [[c|]|err]; red_match.
    - destruct (PyStr.mem _ labels); red_match; intros H; inversion H; subst; auto.
      rewrite existsb_app; red_match; now rewrite !orb_false_r.
    - intros H; inversion H; subst.
      rewrite existsb_app; red_match; now rewrite !orb_false_r.
    - intros H; inversion H; subst.
      rewrite existsb_app; red_match; now rewrite !orb_false_r. }
  destruct (rules_manager self) as [get_rules|].
  - unfold bind at 1. unfold bind at 1. unfold lift at 1.
    destruct (get_rules "ignore_rules") as [i|?];
      [|intros H; now inversion H].
    unfold bind at 1. unfold lift at 1.
    destruct (get_rules "notify_rules") as [n|?];
      [|intros H; now inversion H].
    unfold bind at 1. unfold lift at 1.
    destruct (get_rules "respond_rules") as [rr|?];
      [|intros H; now inversion H].
    unfold ret at 1. apply Htry.
  - unfold bind at 1. unfold ret at 1. apply Htry.
Qed.

Lemma category_scores_empty (self : manager) (s : list event) :
  count (ignore_collection self) = Ok 0 ->
  count (notify_collection self) = Ok 0 ->
  count (respond_collection self) = Ok 0 ->
  category_scores_of (collections self) s
  = (Ok [("ignore", 0%Q); ("notify", 0%Q); ("respond", 0%Q)], s).
Proof.
  intros Hi Hn Hr. unfold collections. cbn [category_scores_of].
  unfold bind.
  rewrite (category_score_empty _ _ _ Hi).
  rewrite (category_score_empty _ _ _ Hn).
  rewrite (category_score_empty _ _ _ Hr).
  reflexivity.
Qed.

(** C3. When the three example pools hold no example, [classify_email]
    announces the missing examples, hands the decision to
    [_classify_with_llm] and pairs whatever label it gives with the
    confidence 0.5; it does return whenever the rule lookups of the
    fallback succeed. *)
Theorem classify_email_empty_pools (self : manager) (e : email_data)
        (s : list event) :
  count (ignore_collection self) = Ok 0 ->
  count (notify_collection self) = Ok 0 ->
  count (respond_collection self) = Ok 0 ->
  classify_email self e s
  = (c <- _classify_with_llm self e ;; ret (c, 0.5%Q))
      (s ++ [NoFewShotExamples])%list
  /\ (forall l c s', classify_email self e s = (Ok (l, c), s') ->
                     c = 0.5%Q /\ In l labels)
  /\ (rules_available self ->
      exists l s', classify_email self e s = (Ok (l, 0.5%Q), s')).
Proof.
  intros Hi Hn Hr.
  assert (Heq : classify_email self e s
                = (c <- _classify_with_llm self e ;; ret (c, 0.5%Q))
                    (s ++ [NoFewShotExamples])%list).
  { unfold classify_email, classify_email_with.
    unfold bind at 1. rewrite (category_scores_empty self s Hi Hn Hr).
    cbn [forallb snd Qeq_bool andb]. 
    change (Qeq_bool 0 0) with true. cbn [andb].
    unfold bind at 1. unfold print, modify. reflexivity. }
  split; [exact Heq|]. split.
  - intros l c s'. rewrite Heq. unfold bind, ret.
    destruct (_classify_with_llm self e (s ++ [NoFewShotExamples])%list)
      as [[l0|err] s0] eqn:Hllm; intros H; inversion H; subst.
    split; [reflexivity|].
    apply mem_labels. eapply classify_with_llm_label; eassumption.
  - intros Hrules.
    destruct (classify_with_llm_returns self e
                (s ++ [NoFewShotExamples])%list Hrules) as (l & s' & Hl).
    exists l, s'. rewrite Heq. unfold bind, ret. now rewrite Hl.
Qed.

Lemma classify_email_empty_pools_witness :
  classify_email empty_manager hello []
  = (c <- _classify_with_llm empty_manager hello ;; ret (c, 0.5%Q))
      [NoFewShotExamples].
Proof.
  apply (classify_email_empty_pools empty_manager hello []); reflexivity.
Defined.

Lemma category_scores_of_keys (cs : list (string * collection)) :
  forall s scores s',
    category_scores_of cs s = (Ok scores, s') ->
    map fst scores = map fst cs.
Proof.
  induction cs as [|[category c] cs IH]; intros s scores s';
    cbn [category_scores_of].
  - unfold ret. intros H; now inversion H.
  - unfold bind at 1.
    destruct (category_score category c s) as [[q|err] s1];
      [|discriminate].
    unfold bind at 1.
    destruct (category_scores_of cs s1) as [[rest|err] s2] eqn:Hrest;
      [|discriminate].
    unfold ret. intros H; inversion H; subst. cbn [map fst].
    f_equal. eapply IH; eauto.
Qed.

(** *** The best pool *)










Lemma print_no_invalid (ev : event) (s : list event) :
  is_invalid_llm_event ev = false ->
  existsb is_invalid_llm_event (s ++ [ev])%list
  = existsb is_invalid_llm_event s.
Proof.
  intros H. rewrite existsb_app. cbn [existsb]. rewrite H.
  now rewrite !orb_false_r.
Qed.

(** *** What the fallback returns *)

(** The rule texts in hand, the outcome of [_classify_with_llm] follows
    the model's reply: a label is returned as it is, anything else,
    and a failed call, gives [respond]. *)
Lemma classify_with_llm_outcome (self : manager) (e : email_data)
      (s : list event) (i n r : string) :
  rules_read self i n r ->
  _classify_with_llm self e s
  = match chat_completion self (classification_prompt i n r e) with
    | Ok (Some c) =>
        if PyStr.mem (PyStr.lower (PyStr.strip c)) labels
        then (Ok (PyStr.lower (PyStr.strip c)), s)
        else (Ok "respond",
              (s ++ [InvalidClassification
                       (PyStr.lower (PyStr.strip c))])%list)
    | Ok None =>
        (Ok "respond",
         (s ++ [ErrorInLLMClassification
                  "'NoneType' object has no attribute 'strip'"])%list)
    | Raise err =>
        (Ok "respond", (s ++ [ErrorInLLMClassification err])%list)
    end.
Proof.
  unfold rules_read, _classify_with_llm. intros Hr.
  assert (Hrules :
    (match rules_manager self with
     | Some get_rules =>
         i0 <- lift (get_rules "ignore_rules") ;;
         n0 <- lift (get_rules "notify_rules") ;;
         r0 <- lift (get_rules "respond_rules") ;;
         ret (i0, n0, r0)
     | None =>
         ret (default_ignore_rules, default_notify_rules,
              default_respond_rules)
     end) s = (Ok (i, n, r), s)).
  { destruct (rules_manager self) as [get_rules|].
    - destruct Hr as (Hi & Hn & Hrr).
      unfold bind, lift, ret. now rewrite Hi, Hn, Hrr.
    - destruct Hr as (-> & -> & ->). reflexivity. }
  unfold bind at 1. rewrite Hrules. red_match.
  unfold try_except, bind at 1, lift at 1.
  destruct (chat_completion self (classification_prompt i n r e))
    as [[c|]|err]; red_match.
  - destruct (PyStr.mem (PyStr.lower (PyStr.strip c)) labels);
      reflexivity.
  - reflexivity.
  - reflexivity.
Qed.

Lemma rules_available_read (self : manager) :
  rules_available self -> exists i n r, rules_read self i n r.
Proof.
  unfold rules_available, rules_read.
  destruct (rules_manager self) as [get_rules|]; intros Hr.
  - destruct (Hr "ignore_rules") as [i Hi].
    destruct (Hr "notify_rules") as [n Hn].
    destruct (Hr "respond_rules") as [r Hrr]. eauto 6.
  - eauto 6.
Qed.

(** An exception of [_classify_with_llm] is that of a rule lookup. *)
Lemma classify_with_llm_raise (self : manager) (e : email_data)
      (s s' : list event) (err : string) :
  _classify_with_llm self e s = (Raise err, s') ->
  s' = s
  /\ exists get_rules k,
       rules_manager self = Some get_rules /\ get_rules k = Raise err.
Proof.
  unfold _classify_with_llm.
  assert (Htry : forall p st,
    try_except
      (content <- lift (chat_completion self p) ;;
       match content with
       | None => raise "'NoneType' object has no attribute 'strip'"
       | Some c =>
           let classification := PyStr.lower (PyStr.strip c) in
           if PyStr.mem classification labels then ret classification
           else print (InvalidClassification classification) ;;;
                ret "respond"
       end)
      (fun err => print (ErrorInLLMClassification err) ;;; ret "respond") s
    <> (Raise err, st)).
  { intros p st. unfold print. unfold_monad.
    destruct (chat_completion self p) as [[c|]|err0]; red_match;
      try discriminate.
    destruct (PyStr.mem _ labels); discriminate. }
  destruct (rules_manager self) as [get_rules|].
  - unfold bind at 1. unfold bind at 1. unfold lift at 1.
    destruct (get_rules "ignore_rules") as [i|e1] eqn:Hi.
    + unfold bind at 1. unfold lift at 1.
      destruct (get_rules "notify_rules") as [n|e2] eqn:Hn.
      * unfold bind at 1. unfold lift at 1.
        destruct (get_rules "respond_rules") as [r|e3] eqn:Hrr.
        -- unfold ret at 1. intros H. now apply Htry in H.
        -- intros H; inversion H; subst. split; [reflexivity|eauto].
      * intros H; inversion H; subst. split; [reflexivity|eauto].
    + intros H; inversion H; subst. split; [reflexivity|eauto].
  - unfold bind at 1. unfold ret at 1. intros H. now apply Htry in H.
Qed.

(** C10, on the code. The three rule lookups of [_classify_with_llm]
    come before its [try]: when the store behind them fails, the
    fallback raises instead of returning [respond], and so does
    [classify_email]; the handler of [process_email] is what then gives
    [respond]. *)
Lemma rule_lookup_failure_escapes :
  _classify_with_llm locked_rules_manager hello []
  = (Raise "database is locked", [])
  /\ classify_email locked_rules_manager hello []
     = (Raise "database is locked", [NoFewShotExamples])
  /\ process_email_classify locked_rules_manager hello []
     = (Ok ("respond", 0.5%Q), [NoFewShotExamples]).
Proof. repeat split. Qed.

(** C10, as the code has it. Whatever [_classify_with_llm] returns is
    one of the three labels. With the rule texts read, it always
    returns, and what it returns follows the model's reply: the reply,
    stripped and in lower case, when that is a label; [respond] for
    any other reply, for a reply without content and for a model call
    that raises. It raises only when a rule lookup does. Hence
    [classify_email] never reports an invalid fallback label: the
    branch that would keep the best pool instead is never taken. *)
Theorem fallback_label_valid_discard_unreachable (self : manager)
        (e : email_data) (s : list event) :
  (forall l s', _classify_with_llm self e s = (Ok l, s') -> In l labels)
  /\ (forall i n r,
        rules_read self i n r ->
        let reply := chat_completion self (classification_prompt i n r e) in
        (forall c,
           reply = Ok (Some c) ->
           PyStr.mem (PyStr.lower (PyStr.strip c)) labels = true ->
           _classify_with_llm self e s
           = (Ok (PyStr.lower (PyStr.strip c)), s))
        /\ (forall c,
              reply = Ok (Some c) ->
              PyStr.mem (PyStr.lower (PyStr.strip c)) labels = false ->
              _classify_with_llm self e s
              = (Ok "respond",
                 (s ++ [InvalidClassification
                          (PyStr.lower (PyStr.strip c))])%list))
        /\ (reply = Ok None ->
            _classify_with_llm self e s
            = (Ok "respond",
               (s ++ [ErrorInLLMClassification
                        "'NoneType' object has no attribute 'strip'"])%list))
        /\ (forall err,
              reply = Raise err ->
              _classify_with_llm self e s
              = (Ok "respond", (s ++ [ErrorInLLMClassification err])%list)))
  /\ (rules_available self ->
      exists l s', _classify_with_llm self e s = (Ok l, s') /\ In l labels)
  /\ (forall err s',
        _classify_with_llm self e s = (Raise err, s') ->
        exists get_rules k,
          rules_manager self = Some get_rules /\ get_rules k = Raise err)
  /\ existsb is_invalid_llm_event (snd (classify_email self e s))
     = existsb is_invalid_llm_event s.
Proof.
  split; [|split; [|split; [|split]]].
  - intros l s' H. apply mem_labels. eapply classify_with_llm_label; eauto.
  - intros i n r Hr reply. subst reply.
    pose proof (classify_with_llm_outcome self e s i n r Hr) as Ho.
    repeat split.
    + intros c Hc Hm. rewrite Ho, Hc, Hm. reflexivity.
    + intros c Hc Hm. rewrite Ho, Hc, Hm. reflexivity.
    + intros Hc. rewrite Ho, Hc. reflexivity.
    + intros err Hc. rewrite Ho, Hc. reflexivity.
  - intros Hr. destruct (classify_with_llm_returns self e s Hr) as (l & s' & H).
    exists l, s'. split; [exact H|].
    apply mem_labels. eapply classify_with_llm_label; eauto.
  - intros err s' H. now apply classify_with_llm_raise in H.
  - unfold classify_email, classify_email_with.
    unfold bind at 1.
    destruct (category_scores_of (collections self) s) as [[scores|err] s1]
      eqn:Hs; [|cbn [snd]; eapply category_scores_of_no_invalid; eauto].
    rewrite <- (category_scores_of_no_invalid _ _ _ _ Hs).
    destruct (forallb (fun p => Qeq_bool (snd p) 0) scores).
    + unfold bind at 1. unfold print at 1. unfold modify at 1.
      unfold bind at 1.
      destruct (_classify_with_llm self e (s1 ++ [NoFewShotExamples])%list)
        as [[l|err] s2] eqn:Hl; unfold ret; cbn [snd];
        rewrite (classify_with_llm_no_invalid _ _ _ _ _ Hl);
        now apply print_no_invalid.
    + unfold bind at 1. unfold lift at 1.
      destruct (max_key scores) as [[bc bs]|err]; [|reflexivity].
      red_match.
      destruct (Qlt_bool bs (confidence_threshold_of self)).
      * unfold bind at 1. unfold print at 1. unfold modify at 1.
        unfold bind at 1.
        destruct (_classify_with_llm self e
                    (s1 ++ [LowConfidence bs (confidence_threshold_of self)])%list)
          as [[l|err] s2] eqn:Hl.
        -- rewrite (classify_with_llm_label _ _ _ _ _ Hl). cbn [negb].
           unfold ret; cbn [snd].
           rewrite (classify_with_llm_no_invalid _ _ _ _ _ Hl).
           now apply print_no_invalid.
        -- cbn [snd]. rewrite (classify_with_llm_no_invalid _ _ _ _ _ Hl).
           now apply print_no_invalid.
      * unfold bind, print, modify, ret. cbn [snd].
        now apply print_no_invalid.
Qed.

(** A model call that fails gives [respond]. *)
Lemma fallback_label_valid_discard_unreachable_witness :
  _classify_with_llm offline_manager hello []
  = (Ok "respond", [ErrorInLLMClassification "Connection error."]).
Proof.
  destruct (fallback_label_valid_discard_unreachable offline_manager hello [])
    as (_ & H & _).
  destruct (H default_ignore_rules default_notify_rules default_respond_rules)
    as (_ & _ & _ & Hraise).
  - repeat split.
  - exact (Hraise "Connection error." eq_refl).
Defined.

(** *** Labels and confidences returned by [classify_email] *)

Lemma max_from_in (l : list (string * Q)) :
  forall best, In (fst (max_from best l)) (fst best :: map fst l).
Proof.
  induction l as [|p l IH]; intros best; cbn [max_from map].
  - now left.
  - specialize (IH (if Qlt_bool (snd best) (snd p) then p else best)).
    destruct (Qlt_bool (snd best) (snd p)); cbn in IH |- *; tauto.
Qed.

Lemma classify_email_label (self : manager) (e : email_data)
      (s s' : list event) (l : string) (c : Q) :
  classify_email self e s = (Ok (l, c), s') -> In l labels.
Proof.
  unfold classify_email, classify_email_with.
  unfold bind at 1.
  destruct (category_scores_of (collections self) s) as [[scores|err] s1]
    eqn:Hs; [|discriminate].
  pose proof (category_scores_of_keys _ _ _ _ Hs) as Hkeys.
  destruct (forallb (fun p => Qeq_bool (snd p) 0) scores).
  - unfold bind at 1. unfold print at 1. unfold modify at 1.
    unfold bind at 1.
    destruct (_classify_with_llm self e (s1 ++ [NoFewShotExamples])%list)
      as [[l0|err] s2] eqn:Hl; [|discriminate].
    unfold ret. intros H; inversion H; subst.
    apply mem_labels. eapply classify_with_llm_label; eauto.
  - assert (Hbest : forall bc bs, max_key scores = Ok (bc, bs) -> In bc labels).
    { intros bc bs. unfold max_key. destruct scores as [|p scores];
        [discriminate|].
      intros H; inversion H as [Hm].
      pose proof (max_from_in scores p) as Hin. rewrite Hm in Hin.
      cbn [fst] in Hin. change (fst p :: map fst scores)
        with (map fst (p :: scores)) in Hin.
      rewrite Hkeys in Hin. exact Hin. }
    unfold bind at 1. unfold lift at 1.
    destruct (max_key scores) as [[bc bs]|err]; [|discriminate].
    specialize (Hbest bc bs eq_refl). red_match.
    destruct (Qlt_bool bs (confidence_threshold_of self)).
    + unfold bind at 1. unfold print at 1. unfold modify at 1.
      unfold bind at 1.
      destruct (_classify_with_llm self e
                  (s1 ++ [LowConfidence bs (confidence_threshold_of self)])%list)
        as [[l0|err] s2] eqn:Hl; [|discriminate].
      rewrite (classify_with_llm_label _ _ _ _ _ Hl). cbn [negb].
      unfold ret. intros H; inversion H; subst.
      apply mem_labels. eapply classify_with_llm_label; eauto.
    + unfold bind, print, modify, ret. intros H; inversion H; subst.
      exact Hbest.
Qed.

(** The classification step of [process_email] always yields a label
    among the three categories. *)
Lemma process_email_classify_label (self : manager) (e : email_data)
      (s : list event) :
  exists l c s',
    process_email_classify self e s = (Ok (l, c), s') /\ In l labels.
Proof.
  unfold process_email_classify. unfold try_except. unfold bind at 1.
  destruct (classify_email self e s) as [[[l c]|err] s1] eqn:Hc.
  - red_match.
    destruct (PyStr.mem l labels) eqn:Hm; cbn [negb].
    + unfold ret. exists l, c, s1. split; [reflexivity|].
      now apply mem_labels.
    + unfold bind, print, modify, ret.
      eexists _, _, _. split; [reflexivity|]. cbn; tauto.
  - unfold ret. eexists _, _, _. split; [reflexivity|]. cbn; tauto.
Qed.

(** *** When the confidence does lie between 0 and 1 *)

Lemma fold_sum_bounds (l : list Q) :
  Forall (fun x => 0 <= x /\ x <= 1)%Q l ->
  forall a, (a <= fold_left Qplus l a
             /\ fold_left Qplus l a <= a + inject_Z (Z.of_nat (length l)))%Q.
Proof.
  induction 1 as [|x l [Hx0 Hx1] _ IH]; intros a.
  - cbn. split; [apply Qle_refl|]. rewrite Qplus_0_r. apply Qle_refl.
  - cbn [fold_left length]. destruct (IH (a + x)%Q) as [Hlo Hhi]. split.
    + eapply Qle_trans; [|exact Hlo].
      rewrite <- (Qplus_0_r a) at 1. apply Qplus_le_compat;
        [apply Qle_refl|exact Hx0].
    + eapply Qle_trans; [exact Hhi|].
      rewrite Nat2Z.inj_succ. unfold Z.succ. rewrite inject_Z_plus.
      rewrite <- Qplus_assoc. apply Qplus_le_compat; [apply Qle_refl|].
      rewrite (Qplus_comm (inject_Z (Z.of_nat (length l)))).
      apply Qplus_le_compat; [exact Hx1|apply Qle_refl].
Qed.

Lemma average_bounds (l : list Q) :
  l <> [] ->
  Forall (fun x => 0 <= x /\ x <= 1)%Q l ->
  (0 <= average l /\ average l <= 1)%Q.
Proof.
  intros Hne HF. unfold average.
  destruct (fold_sum_bounds l HF 0%Q) as [Hlo Hhi].
  rewrite Qplus_0_l in Hhi.
  assert (Hpos : (0 < inject_Z (Z.of_nat (length l)))%Q).
  { destruct l; [contradiction|]. unfold Qlt. cbn. lia. }
  split.
  - apply Qle_shift_div_l; [exact Hpos|]. now rewrite Qmult_0_l.
  - apply Qle_shift_div_r; [exact Hpos|]. now rewrite Qmult_1_l.
Qed.

Lemma category_score_bounds (category : string) (c : collection)
      (s s' : list event) (q : Q) :
  unit_distances c ->
  category_score category c s = (Ok q, s') ->
  (0 <= q /\ q <= 1)%Q.
Proof.
  intros Hu. unfold category_score, print. unfold_monad.
  assert (H0 : (0 <= 0 /\ 0 <= 1)%Q) by (split; discriminate).
  destruct (count c) as [n|err]; red_match;
    [|intros H; inversion H; subst; exact H0].
  destruct (n =? 0)%nat; [intros H; inversion H; subst; exact H0|].
  destruct (query_distances c (Nat.min 3 n)) as [[|d ds]|err] eqn:Hq;
    red_match; try (intros H; inversion H; subst; exact H0).
  destruct (0 <? length d)%nat eqn:Hlen;
    intros H; inversion H; subst; [|exact H0].
  apply average_bounds.
  - destruct d; [discriminate Hlen|discriminate].
  - apply Forall_forall. intros x Hx. apply in_map_iff in Hx as (y & <- & Hy).
    destruct (Hu _ _ y Hq Hy) as [Hy0 Hy1]. split.
    + unfold Qminus. rewrite <- (Qplus_opp_r y).
      apply Qplus_le_compat; [exact Hy1|apply Qle_refl].
    + unfold Qminus. rewrite <- (Qplus_0_r 1) at 2.
      apply Qplus_le_compat; [apply Qle_refl|].
      apply (Qopp_le_compat 0 y) in Hy0. exact Hy0.
Qed.

Lemma category_scores_of_bounds (cs : list (string * collection)) :
  Forall (fun p => unit_distances (snd p)) cs ->
  forall s scores s',
    category_scores_of cs s = (Ok scores, s') ->
    Forall (fun p => 0 <= snd p /\ snd p <= 1)%Q scores.
Proof.
  induction 1 as [|[category c] cs Hc _ IH]; intros s scores s';
    cbn [category_scores_of].
  - unfold ret. intros H; inversion H. constructor.
  - unfold bind at 1.
    destruct (category_score category c s) as [[q|err] s1] eqn:Hq;
      [|discriminate].
    unfold bind at 1.
    destruct (category_scores_of cs s1) as [[rest|err] s2] eqn:Hrest;
      [|discriminate].
    unfold ret. intros H; inversion H; subst. constructor.
    + cbn [snd]. eapply category_score_bounds; eauto.
    + eapply IH; eauto.
Qed.

Lemma max_from_forall (P : string * Q -> Prop) (l : list (string * Q)) :
  forall best, P best -> Forall P l -> P (max_from best l).
Proof.
  induction l as [|p l IH]; intros best Hb HF; cbn [max_from]; [exact Hb|].
  inversion HF; subst. apply IH; [|assumption].
  destruct (Qlt_bool (snd best) (snd p)); assumption.
Qed.

(** With distances between 0 and 1 the confidence is between 0 and 1. *)
Lemma classify_email_confidence_in_range (self : manager) (e : email_data)
      (s s' : list event) (l : string) (c : Q) :
  unit_distances (ignore_collection self) ->
  unit_distances (notify_collection self) ->
  unit_distances (respond_collection self) ->
  classify_email self e s = (Ok (l, c), s') ->
  (0 <= c /\ c <= 1)%Q.
Proof.
  intros Hi Hn Hr.
  unfold classify_email, classify_email_with.
  unfold bind at 1.
  destruct (category_scores_of (collections self) s) as [[scores|err] s1]
    eqn:Hs; [|discriminate].
  assert (HF : Forall (fun p => 0 <= snd p /\ snd p <= 1)%Q scores).
  { apply (category_scores_of_bounds (collections self))
      with (s := s) (s' := s1); [|exact Hs].
    unfold collections.
    constructor; [exact Hi|]. constructor; [exact Hn|].
    constructor; [exact Hr|]. constructor. }
  destruct (forallb (fun p => Qeq_bool (snd p) 0) scores).
  - unfold bind at 1. unfold print at 1. unfold modify at 1.
    unfold bind at 1.
    destruct (_classify_with_llm self e (s1 ++ [NoFewShotExamples])%list)
      as [[l0|err] s2]; [|discriminate].
    unfold ret. intros H; inversion H; subst. split; discriminate.
  - unfold bind at 1. unfold lift at 1.
    destruct (max_key scores) as [[bc bs]|err] eqn:Hmax; [|discriminate].
    assert (Hb : (0 <= bs /\ bs <= 1)%Q).
    { unfold max_key in Hmax. destruct scores as [|p scores]; [discriminate|].
      inversion Hmax as [Hm]. inversion HF; subst.
      change bs with (snd (bc, bs)). rewrite <- Hm.
      apply (max_from_forall (fun p => 0 <= snd p /\ snd p <= 1)%Q);
        assumption. }
    red_match.
    destruct (Qlt_bool bs (confidence_threshold_of self)).
    + unfold bind at 1. unfold print at 1. unfold modify at 1.
      unfold bind at 1.
      destruct (_classify_with_llm self e _) as [[l0|err] s2];
        [|discriminate].
      destruct (negb (PyStr.mem l0 labels));
        unfold bind, print, modify, ret; intros H; inversion H; subst;
        exact Hb.
    + unfold bind, print, modify, ret. intros H; inversion H; subst.
      exact Hb.
Qed.

(** C1, on the code. Three pools whose nearest examples lie at distances
    1.5, 1.75 and 2: the best average similarity is [1 - 1.5], and that
    negative number is returned as the confidence, both by
    [classify_email] and after the validation of [process_email]. *)
Theorem classify_email_confidence_below_zero :
  classify_email far_manager hello []
  = (Ok ("notify", (-0.5)%Q), [LowConfidence (-0.5) 0.37])
  /\ process_email_classify far_manager hello []
     = (Ok ("notify", (-0.5)%Q), [LowConfidence (-0.5) 0.37])
  /\ ((-0.5) < 0)%Q.
Proof. repeat split. Qed.

End TriageFacts.

Module ToolFacts.
Import Agent.
Local Open Scope monad_scope.

Lemma starts_with_refl (s : string) : PyStr.starts_with s s = true.
Proof.
  induction s as [|c s IH]; cbn; [reflexivity|].
  now rewrite Ascii.eqb_refl, IH.
Qed.

Lemma starts_with_append (p s : string) :
  PyStr.starts_with p (p ++ s) = true.
Proof.
  induction p as [|c p IH]; cbn; [reflexivity|].
  now rewrite Ascii.eqb_refl, IH.
Qed.

Lemma contains_suffix (w e : string) : PyStr.contains e (w ++ e) = true.
Proof.
  induction w as [|c w IH]; cbn [append].
  - destruct e; cbn; [reflexivity|].
    now rewrite Ascii.eqb_refl, starts_with_refl.
  - cbn [PyStr.contains]. rewrite IH. apply orb_true_r.
Qed.

(** The three tools of [EmailTools] report success whenever they return. *)
Lemma write_email_tool_status f args status detail :
  EmailTools.write_email_tool f args = Ok (status, detail) ->
  status = success.
Proof.
  unfold EmailTools.write_email_tool.
  destruct (EmailTools.bind_kwargs _ _ args) as [[|a [|b [|c [|d l]]]]|e];
    try discriminate.
  intros H; now inversion H.
Qed.

Lemma schedule_meeting_tool_status f args status detail :
  EmailTools.schedule_meeting_tool f args = Ok (status, detail) ->
  status = success.
Proof.
  unfold EmailTools.schedule_meeting_tool.
  destruct (EmailTools.bind_kwargs _ _ args)
    as [[|a [|b [|c [|d [|x l]]]]]|e]; try discriminate.
  destruct (EmailTools.len a); [|discriminate].
  intros H; now inversion H.
Qed.

Lemma check_calendar_availability_tool_status f args status detail :
  EmailTools.check_calendar_availability_tool f args = Ok (status, detail) ->
  status = success.
Proof.
  unfold EmailTools.check_calendar_availability_tool.
  destruct (EmailTools.bind_kwargs _ _ args) as [[|a [|b l]]|e];
    try discriminate.
  intros H; now inversion H.
Qed.

(** One guarded arm: it returns what the tool returns, or the failure
    pair built from the exception text. *)
Lemma guarded_spec (name : string) (args : kwargs)
      (tool : kwargs -> result (string * string)) (what : string)
      (s : state) :
  guarded name args tool what s
  = match tool args with
    | Ok r => (Ok r, set_log (fun l => (l ++ [Invoked name args])%list) s)
    | Raise e =>
        (Ok (failed, what ++ e),
         set_log (fun l => (l ++ [Print (what ++ e)])%list)
           (set_log (fun l => (l ++ [Invoked name args])%list) s))
    end.
Proof.
  unfold guarded, invoke, emit, print. unfold_monad.
  destruct (tool args); reflexivity.
Qed.

(** What an arm contributes to the result of [execute_function_call]. *)
Lemma guarded_result (name : string) (args : kwargs)
      (tool : kwargs -> result (string * string)) (what : string)
      (s : state) :
  exists status detail s',
    guarded name args tool what s = (Ok (status, detail), s')
    /\ ((forall st d, tool args = Ok (st, d) -> st = success \/ st = failed) ->
        status = success \/ status = failed)
    /\ (forall e, tool args = Raise e ->
                  status = failed /\ detail = what ++ e
                  /\ PyStr.contains e detail = true).
Proof.
  rewrite guarded_spec.
  destruct (tool args) as [[status detail]|e] eqn:Ht.
  - exists status, detail. eexists. split; [reflexivity|].
    split; [intros Hm; eapply Hm; reflexivity | discriminate].
  - exists failed, (what ++ e). eexists. split; [reflexivity|].
    split; [now right|].
    intros e' He; inversion He; subst.
    repeat split. apply contains_suffix.
Qed.

(** C9. [execute_function_call] never raises: for every name and every
    argument dict it returns a pair. The status of that pair is one of
    the two markers, the two tools defined outside this code being held
    to that contract; when the tool behind the name raises, the status
    is the failure marker and the detail ends with the exception text;
    an unknown name gives the failure marker. *)
Theorem execute_function_call_never_raises (self : env) (name : string)
        (args : kwargs) (s : state) :
  exists status detail s',
    execute_function_call self name args s = (Ok (status, detail), s')
    /\ (tools_return_markers self -> status = success \/ status = failed)
    /\ (forall tool what e,
           underlying_tool self (calls s) name = Some (tool, what) ->
           tool args = Raise e ->
           status = failed /\ detail = what ++ e
           /\ PyStr.contains e detail = true)
    /\ (underlying_tool self (calls s) name = None ->
        status = failed /\ detail = "Unknown function: " ++ name).
Proof.
  unfold execute_function_call, underlying_tool.
  destruct (String.eqb name "search_vector_db").
  { unfold try_except, bind at 1, next_call, bind, get, put, ret.
    destruct (guarded_result name args (search_vector_db self (calls s))
                "Error searching VectorDB: " (set_calls (S (calls s)) s))
      as (st & d & s' & Hg & Hm & Hr).
    rewrite Hg. exists st, d, s'. split; [reflexivity|].
    split; [|split; [|discriminate]].
    - intros Hc. apply Hm. intros st0 d0 H.
      eapply (proj1 (Hc _ _ _ _)). exact H.
    - intros tool what e H; inversion H; subst. apply Hr. }
  destruct (String.eqb name "add_user_info_to_database").
  { unfold try_except, bind at 1, next_call, bind, get, put, ret.
    destruct (guarded_result name args
                (add_user_info_to_database self (calls s))
                "Error updating user info: " (set_calls (S (calls s)) s))
      as (st & d & s' & Hg & Hm & Hr).
    rewrite Hg. exists st, d, s'. split; [reflexivity|].
    split; [|split; [|discriminate]].
    - intros Hc. apply Hm. intros st0 d0 H.
      eapply (proj2 (Hc _ _ _ _)). exact H.
    - intros tool what e H; inversion H; subst. apply Hr. }
  destruct (String.eqb name "write_email_tool").
  { unfold try_except.
    destruct (guarded_result name args
                (EmailTools.write_email_tool (py_format self))
                "Error writing email: " s)
      as (st & d & s' & Hg & Hm & Hr).
    rewrite Hg. exists st, d, s'. split; [reflexivity|].
    split; [|split; [|discriminate]].
    - intros _. apply Hm. intros st0 d0 H. left.
      eapply write_email_tool_status; eauto.
    - intros tool what e H; inversion H; subst. apply Hr. }
  destruct (String.eqb name "schedule_meeting_tool").
  { unfold try_except.
    destruct (guarded_result name args
                (EmailTools.schedule_meeting_tool (py_format self))
                "Error scheduling meeting: " s)
      as (st & d & s' & Hg & Hm & Hr).
    rewrite Hg. exists st, d, s'. split; [reflexivity|].
    split; [|split; [|discriminate]].
    - intros _. apply Hm. intros st0 d0 H. left.
      eapply schedule_meeting_tool_status; eauto.
    - intros tool what e H; inversion H; subst. apply Hr. }
  destruct (String.eqb name "check_calendar_availability_tool").
  { unfold try_except.
    destruct (guarded_result name args
                (EmailTools.check_calendar_availability_tool (py_format self))
                "Error checking calendar: " s)
      as (st & d & s' & Hg & Hm & Hr).
    rewrite Hg. exists st, d, s'. split; [reflexivity|].
    split; [|split; [|discriminate]].
    - intros _. apply Hm. intros st0 d0 H. left.
      eapply check_calendar_availability_tool_status; eauto.
    - intros tool what e H; inversion H; subst. apply Hr. }
  unfold try_except, bind, print, modify, ret.
  eexists _, _, _. split; [reflexivity|].
  split; [intros _; now right|]. split; [discriminate|].
  intros _. split; reflexivity.
Qed.

Lemma execute_function_call_never_raises_witness :
  exists status detail s',
    execute_function_call quiet_env "schedule_meeting_tool"
      [("attendees", JInt 3); ("subject", JStr "Sync");
       ("duration_minutes", JInt 30); ("preferred_day", JStr "Monday")]
      initial_state
    = (Ok (status, detail), s')
    /\ (status = success \/ status = failed).
Proof.
  assert (Hm : tools_return_markers quiet_env).
  { intros n a st d. split; intros E; [|discriminate E].
    inversion E. now left. }
  destruct (execute_function_call_never_raises quiet_env
              "schedule_meeting_tool"
              [("attendees", JInt 3); ("subject", JStr "Sync");
               ("duration_minutes", JInt 30); ("preferred_day", JStr "Monday")]
              initial_state)
    as (st & d & s' & Hrun & Hst & _).
  exists st, d, s'. split; [exact Hrun|exact (Hst Hm)].
Defined.

End ToolFacts.

Module HistoryFacts.
Import Agent.
Local Open Scope monad_scope.

(** *** Monad steps *)

Lemma bind_ok {S X Y} (m : M S X) (f : X -> M S Y) (s s1 : S) (x : X) :
  m s = (Ok x, s1) -> bind m f s = f x s1.
Proof. intros H. unfold bind. now rewrite H. Qed.

Lemma bind_raise {S X Y} (m : M S X) (f : X -> M S Y) (s s1 : S) (e : string) :
  m s = (Raise e, s1) -> bind m f s = (Raise e, s1).
Proof. intros H. unfold bind. now rewrite H. Qed.

(** *** [ORDER BY timestamp DESC] *)

Section Sorting.
Context {X : Type} (key : X -> nat).





End Sorting.


(** *** Calls to the store *)







(** *** What the summary prompt holds *)

Lemma starts_with_app_l (p a b : string) :
  PyStr.starts_with p a = true -> PyStr.starts_with p (a ++ b) = true.
Proof.
  revert a; induction p as [|c p IH]; intros a; [reflexivity|].
  destruct a as [|d a]; cbn; [discriminate|].
  intros H. apply andb_true_iff in H as [H1 H2].
  rewrite H1. cbn. now apply IH.
Qed.










End HistoryFacts.

Module LoopFacts.
Import Agent.
Import HistoryFacts.
Local Open Scope monad_scope.

Lemma try_except_ok {S X} (m : M S X) (h : string -> M S X) (s s1 : S) (x : X) :
  m s = (Ok x, s1) -> try_except m h s = (Ok x, s1).
Proof. intros H. unfold try_except. now rewrite H. Qed.

Lemma try_except_raise {S X} (m : M S X) (h : string -> M S X) (s s1 : S)
      (e : string) :
  m s = (Raise e, s1) -> try_except m h s = h e s1.
Proof. intros H. unfold try_except. now rewrite H. Qed.

(** *** Writing the two stores *)

(** The vector-store write leaves the relational tables, the history
    window and the log alone, whether it raises or not. *)
Lemma save_to_vectordb_frame (self : env) (msg : string) (s s2 : state)
      (r : result unit) :
  save_to_vectordb self msg s = (r, s2) ->
  history_table s2 = history_table s
  /\ summary_table s2 = summary_table s
  /\ email_history s2 = email_history s
  /\ pairs_since_last_summary s2 = pairs_since_last_summary s
  /\ log s2 = log s.
Proof.
  unfold save_to_vectordb, next_call. unfold_monad.
  destruct (vector_fault self (calls s)).
  - intros H; inversion H; subst. repeat split.
  - cbn [calls set_calls set_vector_store].
    destruct (vector_fault self (S (calls s)));
      intros H; inversion H; subst; repeat split.
Qed.

(** [persist] never raises. *)
Lemma persist_total (self : env) (e : email_data) (um : string)
      (response : option string) (summarize : bool) (what : string)
      (s : state) :
  exists saved s', persist self e um response summarize what s = (Ok saved, s').
Proof.
  unfold persist.
  set (sql := try_except _ _).
  assert (Hsql : exists b s1, sql s = (Ok b, s1)).
  { unfold sql, try_except.
    match goal with |- context [ match ?m s with _ => _ end ] =>
      destruct (m s) as [[b|err] s1] end.
    - eauto.
    - unfold bind, print, modify, ret. eauto. }
  destruct Hsql as (b1 & s1 & Hsql).
  rewrite (bind_ok _ _ _ _ _ Hsql).
  set (vec := try_except _ _).
  assert (Hvec : exists b s2, vec s1 = (Ok b, s2)).
  { unfold vec, try_except.
    match goal with |- context [ match ?m s1 with _ => _ end ] =>
      destruct (m s1) as [[b|err] s2] end.
    - eauto.
    - unfold bind, print, modify, ret. eauto. }
  destruct Hvec as (b2 & s2 & Hvec).
  rewrite (bind_ok _ _ _ _ _ Hvec).
  unfold ret. eauto.
Qed.

(** Once the model's reply carries content, that content is what the
    pass returns, whatever the two stores do. *)
Lemma on_content_returns (self : env) (e : email_data) (um c : string)
      (s : state) :
  exists s', on_content self e um c s = (Ok (Return (Some c)), s').
Proof.
  unfold on_content.
  destruct (persist_total self e um (Some c) true "Email" s)
    as ([b1 b2] & s1 & Hp).
  rewrite (bind_ok _ _ _ _ _ Hp). cbn [fst snd].
  destruct b1, b2; cbn [negb]; unfold bind, print, modify, ret; eauto.
Qed.

(** C8. Once a reply with content exists, it is returned whatever the
    two stores do. When the structured store has taken the pair and the
    summary update, and the vector-store write then raises, the tables
    are left as the structured write made them, and the log shows the
    structured success, the vector error and the warning that the
    vector store was not written. *)
Theorem vector_failure_spares_sql_and_answer (self : env) (e : email_data)
        (um c : string) :
  (forall s, exists s', on_content self e um c s = (Ok (Return (Some c)), s'))
  /\ (forall s s0 s1 s2 err,
         add_to_history self e (Some c) (max_history_pairs self) s
         = (Ok tt, s0) ->
         update_email_summary self (max_history_pairs self) s0 = (Ok tt, s1) ->
         save_to_vectordb self ("email: " ++ um ++ ", response: " ++ c)
           (set_log (fun l => (l ++ [Print "Email saved to SQL DB"])%list) s1)
         = (Raise err, s2) ->
         exists s',
           on_content self e um c s = (Ok (Return (Some c)), s')
           /\ history_table s' = history_table s1
           /\ summary_table s' = summary_table s1
           /\ log s'
              = (log s1
                 ++ [Print "Email saved to SQL DB";
                     Print ("Error updating VectorDB memory: " ++ err);
                     Print (format_exc self err);
                     Print "WARNING: Email response generated but NOT saved to VectorDB"])%list).
Proof.
  split; [apply on_content_returns|].
  intros s s0 s1 s2 err Hadd Hupd Hvec.
  destruct (save_to_vectordb_frame _ _ _ _ _ Hvec)
    as (Hh & Hs & _ & _ & Hl).
  unfold on_content, persist.
  unfold bind at 1. unfold bind at 1.
  erewrite try_except_ok; cycle 1.
  { rewrite (bind_ok _ _ _ _ _ Hadd).
    rewrite (bind_ok _ _ _ _ _ Hupd).
    unfold bind, print, modify, ret. reflexivity. }
  unfold bind at 1.
  erewrite try_except_raise; cycle 1.
  { unfold rendered. rewrite (bind_raise _ _ _ _ _ Hvec). reflexivity. }
  unfold bind, print, modify, ret. cbn [fst snd negb].
  eexists. split; [reflexivity|].
  cbn [history_table summary_table log set_log].
  rewrite Hh, Hs, Hl. cbn [history_table summary_table log set_log].
  repeat split. rewrite <- !app_assoc. reflexivity.
Qed.

Lemma vector_failure_spares_sql_and_answer_witness :
  exists s',
    on_content vector_down_env mail1 "Hello" "Thank you, noted." initial_state
    = (Ok (Return (Some "Thank you, noted.")), s')
    /\ List.length (history_table s') = 1.
Proof.
  destruct (proj2 (vector_failure_spares_sql_and_answer vector_down_env mail1
                     "Hello" "Thank you, noted.")
              initial_state
              (snd (add_to_history vector_down_env mail1
                      (Some "Thank you, noted.") 2 initial_state))
              (snd (update_email_summary vector_down_env 2
                      (snd (add_to_history vector_down_env mail1
                              (Some "Thank you, noted.") 2 initial_state))))
              _ "vector store unavailable" eq_refl eq_refl eq_refl)
    as (s' & Hrun & Hh & _).
  exists s'. split; [exact Hrun|]. rewrite Hh. reflexivity.
Defined.

(** The whole of [_generate_response] with the vector store down: the
    answer is returned and the pair is in the [email_history] table. *)
Lemma answer_returned_with_vector_store_down :
  fst (_generate_response vector_down_env 5 mail1 initial_state)
  = Ok (Some (Some "Thank you, noted."))
  /\ List.length
       (history_table
          (snd (_generate_response vector_down_env 5 mail1 initial_state))) = 1
  /\ vector_store (snd (_generate_response vector_down_env 5 mail1 initial_state))
     = []
  /\ printed "Email saved to SQL DB"
       (log (snd (_generate_response vector_down_env 5 mail1 initial_state)))
     = true
  /\ printed "WARNING: Email response generated but NOT saved to VectorDB"
       (log (snd (_generate_response vector_down_env 5 mail1 initial_state)))
     = true.
Proof. vm_compute. repeat split. Qed.

(** *** Repeated tool calls *)

(** Once [email_state] is [finished] at the loop test, the loop is left
    and the fixed string after it is returned: no completion is
    requested any more. *)
Lemma run_loop_finished (self : env) (fuel : nat) (e : email_data)
      (ps fv um : string) (ls : loop_state) (s : state) :
  finished ls = true ->
  run_loop self fuel e ps fv um ls s = (Ok (Some (Some sentinel)), s).
Proof. intros H. destruct fuel; cbn [run_loop]; now rewrite H. Qed.

(** A request whose signature is already in the call history: the tool
    is not run, the note is stored in the section, the state becomes
    [finished], and the loop then ends at once with the fixed string. *)
Lemma repeated_request_leaves_loop (self : env) (fuel : nat)
      (e : email_data) (ps fv um : string) (name : string) (d : kwargs)
      (ls : loop_state) (s : state) :
  existsb (signature_eqb (name, sorted_items d)) (function_call_history ls)
  = true ->
  let ls' := with_loop_detected name (BoundDict d)
               (function_call_count ls + 1) ls in
  let s' := set_log (fun l => (l ++ [Print ("Detected function call loop: "
                                            ++ name
                                            ++ " with same arguments. Breaking loop...")])%list) s in
  on_function_call self name (ArgsDict d) ls s = (Ok (Continue ls'), s')
  /\ function_call_result_section ls' = loop_note name
  /\ run_loop self fuel e ps fv um ls' s' = (Ok (Some (Some sentinel)), s').
Proof.
  intros H ls' s'. split; [|split].
  - unfold on_function_call. rewrite H. reflexivity.
  - reflexivity.
  - now apply run_loop_finished.
Qed.

(** A loop that has ended stays ended with more fuel. *)
Lemma run_loop_more_fuel (self : env) (e : email_data) (ps fv um : string) :
  forall fuel ls s v s',
    run_loop self fuel e ps fv um ls s = (Ok (Some v), s') ->
    forall k, run_loop self (fuel + k) e ps fv um ls s = (Ok (Some v), s').
Proof.
  induction fuel as [|fuel IH]; intros ls s v s' Hrun k.
  - cbn [run_loop] in Hrun. destruct (finished ls) eqn:Hf; [|discriminate].
    rewrite run_loop_finished by exact Hf.
    unfold ret in Hrun. exact Hrun.
  - cbn [Nat.add]. cbn [run_loop] in Hrun |- *.
    destruct (finished ls); [exact Hrun|].
    unfold bind in Hrun |- *.
    destruct (loop_body self e ps fv um ls s) as [[[r|ls']|err] s1];
      try exact Hrun.
    now apply IH.
Qed.

Lemma generate_response_more_fuel (self : env) (e : email_data)
      (fuel : nat) (s s' : state) (v : option string) :
  _generate_response self fuel e s = (Ok (Some v), s') ->
  forall k, _generate_response self (fuel + k) e s = (Ok (Some v), s').
Proof.
  unfold _generate_response. unfold bind.
  destruct (assemble_memory self e s) as [[[[ps ch] fv]|err] s1];
    [|discriminate].
  intros Hrun k. now apply run_loop_more_fuel.
Qed.

(** C2, on the code. The model asks twice for
    [check_calendar_availability_tool(date="Monday")], a call that
    fails. The second request is recognised as a repeat and the tool is
    not run again, but no further completion is requested: two
    completions in all, neither of which saw the repeat note, and the
    value returned, with any fuel from two passes on, is the fixed
    string that follows the loop, not an answer of the model; nothing
    is written to the history. *)
Theorem repeated_failing_call_returns_sentinel :
  (forall k,
      _generate_response failing_tool_env (2 + k) mail1 initial_state
      = _generate_response failing_tool_env 2 mail1 initial_state)
  /\ fst (_generate_response failing_tool_env 2 mail1 initial_state)
     = Ok (Some (Some sentinel))
  /\ List.length
       (completions
          (log (snd (_generate_response failing_tool_env 2 mail1 initial_state))))
     = 2
  /\ existsb (fun fp => PyStr.contains "Function Call Loop Detected" (snd fp))
       (completions
          (log (snd (_generate_response failing_tool_env 2 mail1 initial_state))))
     = false
  /\ invocations
       (log (snd (_generate_response failing_tool_env 2 mail1 initial_state)))
     = [("check_calendar_availability_tool", monday_by_date)]
  /\ history_table (snd (_generate_response failing_tool_env 2 mail1 initial_state))
     = [].
Proof.
  split.
  - intros k.
    rewrite (generate_response_more_fuel failing_tool_env mail1 2
               initial_state
               (snd (_generate_response failing_tool_env 2 mail1 initial_state))
               (Some sentinel)).
    + vm_compute. reflexivity.
    + vm_compute. reflexivity.
  - vm_compute. repeat split.
Qed.

(** The sibling path: when the repeated call had succeeded, the state is
    already [finished], the second request is answered by a completion
    without functions and its content is returned; the tool ran once. *)
Lemma repeated_successful_call_gets_answer :
  fst (_generate_response succeeding_tool_env 5 mail1 initial_state)
  = Ok (Some (Some "Monday at 9:00 AM works for me."))
  /\ map fst
       (completions
          (log (snd (_generate_response succeeding_tool_env 5 mail1 initial_state))))
     = [true; true; false]
  /\ invocations
       (log (snd (_generate_response succeeding_tool_env 5 mail1 initial_state)))
     = [("check_calendar_availability_tool", monday)].
Proof. vm_compute. repeat split. Qed.

End LoopFacts.

Module SummaryFacts.
Import Agent.
Import HistoryFacts.
Local Open Scope monad_scope.

Lemma length_app (a b : string) :
  String.length (a ++ b) = String.length a + String.length b.
Proof. induction a as [|c a IH]; cbn; [reflexivity|now rewrite IH]. Qed.

Lemma length_take (n : nat) (s : string) :
  String.length (PyStr.take n s) = Nat.min n (String.length s).
Proof.
  revert s; induction n as [|n IH]; intros [|c s]; cbn; try reflexivity.
  now rewrite IH.
Qed.

Lemma length_drop (n : nat) (s : string) :
  String.length (PyStr.drop n s) = String.length s - n.
Proof.
  revert s; induction n as [|n IH]; intros [|c s]; cbn; try reflexivity.
  apply IH.
Qed.


(** A text of more than 2000 characters gets strictly shorter. *)
Lemma truncate_middle_shrinks (text : string) :
  20 * 100 < String.length text ->
  String.length (truncate_middle text) < String.length text.
Proof.
  intros Hlong. unfold truncate_middle.
  replace (2000 <? String.length text)%nat with true
    by (symmetry; apply Nat.ltb_lt; exact Hlong).
  rewrite !length_app, length_take, length_drop.
  change (String.length truncation_marker) with 38.
  set (n := String.length text) in *.
  pose proof (Nat.div_mod_eq (n * 2) 5) as H2.
  pose proof (Nat.mod_upper_bound (n * 2) 5 ltac:(lia)) as H2'.
  pose proof (Nat.div_mod_eq (n * 3) 5) as H3.
  pose proof (Nat.mod_upper_bound (n * 3) 5 ltac:(lia)) as H3'.
  lia.
Qed.





End SummaryFacts.

Module DedupFacts.
Import Memory.

(** *** Strings *)

Lemma app_assoc_string (a b c : string) : (a ++ b) ++ c = a ++ b ++ c.
Proof. induction a as [|x a IH]; cbn; [reflexivity|now rewrite IH]. Qed.

Lemma app_empty_r (a : string) : a ++ "" = a.
Proof. induction a as [|x a IH]; cbn; [reflexivity|now rewrite IH]. Qed.

Lemma has_char_app (c : ascii) (a b : string) :
  PyStr.has_char c (a ++ b) = PyStr.has_char c a || PyStr.has_char c b.
Proof.
  induction a as [|x a IH]; cbn; [reflexivity|].
  now rewrite IH, orb_assoc.
Qed.

Lemma no_newline_app (a b : string) :
  PyStr.no_newline (a ++ b) = PyStr.no_newline a && PyStr.no_newline b.
Proof. unfold PyStr.no_newline. now rewrite has_char_app, negb_orb. Qed.

Lemma no_newline_cons (c : ascii) (s : string) :
  PyStr.no_newline (String c s)
  = negb (Ascii.eqb c PyStr.newline) && PyStr.no_newline s.
Proof. unfold PyStr.no_newline. cbn. now rewrite negb_orb. Qed.

Lemma lower_app (a b : string) :
  PyStr.lower (a ++ b) = PyStr.lower a ++ PyStr.lower b.
Proof. induction a as [|x a IH]; cbn; [reflexivity|now rewrite IH]. Qed.

Lemma lower_char_newline (c : ascii) :
  Ascii.eqb (PyStr.lower_char c) PyStr.newline = Ascii.eqb c PyStr.newline.
Proof.
  destruct c as [[] [] [] [] [] [] [] []]; vm_compute; reflexivity.
Qed.

Lemma no_newline_lower (s : string) :
  PyStr.no_newline (PyStr.lower s) = PyStr.no_newline s.
Proof.
  induction s as [|c s IH]; [reflexivity|].
  cbn [PyStr.lower]. rewrite !no_newline_cons, IH.
  now rewrite lower_char_newline.
Qed.

Lemma no_newline_lstrip (s : string) :
  PyStr.no_newline s = true -> PyStr.no_newline (PyStr.lstrip s) = true.
Proof.
  induction s as [|c s IH]; [reflexivity|].
  cbn [PyStr.lstrip]. intros H. destruct (PyStr.is_space c); [|exact H].
  rewrite no_newline_cons in H. apply andb_true_iff in H as [_ H]. auto.
Qed.

Lemma no_newline_rstrip (s : string) :
  PyStr.no_newline s = true -> PyStr.no_newline (PyStr.rstrip s) = true.
Proof.
  induction s as [|c s IH]; [reflexivity|].
  cbn [PyStr.rstrip]. intros H.
  rewrite no_newline_cons in H. apply andb_true_iff in H as [Hc H].
  specialize (IH H).
  destruct (PyStr.rstrip s) as [|d r].
  - destruct (PyStr.is_space c); [reflexivity|].
    rewrite no_newline_cons, Hc. reflexivity.
  - rewrite no_newline_cons, Hc. exact IH.
Qed.

Lemma no_newline_strip (s : string) :
  PyStr.no_newline s = true -> PyStr.no_newline (PyStr.strip s) = true.
Proof.
  intros H. unfold PyStr.strip. now apply no_newline_rstrip, no_newline_lstrip.
Qed.

(** *** Blank texts *)

Lemma truthy_rstrip (s : string) :
  PyStr.truthy (PyStr.rstrip s) = PyStr.any_nonspace s.
Proof.
  induction s as [|c s IH]; [reflexivity|].
  cbn [PyStr.rstrip PyStr.any_nonspace]. rewrite <- IH.
  destruct (PyStr.rstrip s); cbn [PyStr.truthy].
  - destruct (PyStr.is_space c); reflexivity.
  - now rewrite orb_true_r.
Qed.

Lemma any_nonspace_lstrip (s : string) :
  PyStr.any_nonspace (PyStr.lstrip s) = PyStr.any_nonspace s.
Proof.
  induction s as [|c s IH]; [reflexivity|].
  cbn [PyStr.lstrip]. destruct (PyStr.is_space c) eqn:E.
  - cbn [PyStr.any_nonspace]. rewrite E. exact IH.
  - reflexivity.
Qed.

Lemma truthy_strip (s : string) :
  PyStr.truthy (PyStr.strip s) = PyStr.any_nonspace s.
Proof. unfold PyStr.strip. now rewrite truthy_rstrip, any_nonspace_lstrip. Qed.

Lemma any_nonspace_app (a b : string) :
  PyStr.any_nonspace (a ++ b) = PyStr.any_nonspace a || PyStr.any_nonspace b.
Proof.
  induction a as [|x a IH]; cbn; [reflexivity|].
  now rewrite IH, orb_assoc.
Qed.

Lemma truthy_strip_newline (x : string) :
  PyStr.truthy (PyStr.strip (x ++ nl)) = PyStr.truthy (PyStr.strip x).
Proof.
  rewrite !truthy_strip, any_nonspace_app.
  change (PyStr.any_nonspace nl) with false. apply orb_false_r.
Qed.

(** *** [split] *)

Lemma split_go_nonempty (sep : string) (s : string) :
  forall k, PyStr.split_go sep k s <> [].
Proof.
  induction s as [|c s IH]; intros k; cbn [PyStr.split_go]; [discriminate|].
  destruct k as [|k]; [|apply IH].
  destruct (PyStr.starts_with sep (String c s)); [discriminate|].
  destruct (PyStr.split_go sep 0 s); discriminate.
Qed.

(** Passing over the rest of a separator just found. *)
Lemma split_go_skip (sep p t : string) :
  PyStr.split_go sep (String.length p) (p ++ t) = PyStr.split_go sep 0 t.
Proof. induction p as [|c p IH]; cbn; [reflexivity|exact IH]. Qed.

Lemma split_separator_first (sep t : string) :
  sep <> "" -> PyStr.split sep (sep ++ t) = "" :: PyStr.split sep t.
Proof.
  intros Hne. destruct sep as [|c sep']; [contradiction|].
  unfold PyStr.split. cbn [append PyStr.split_go].
  change (String c (sep' ++ t)) with (String c sep' ++ t).
  rewrite ToolFacts.starts_with_append.
  cbn [String.length].
  replace (S (String.length sep') - 1) with (String.length sep') by lia.
  now rewrite split_go_skip.
Qed.

(** The first piece is a prefix of the text. *)
Lemma split_head_prefix (sep : string) (s : string) :
  forall x r, PyStr.split_go sep 0 s = x :: r -> exists rest, s = x ++ rest.
Proof.
  induction s as [|c s IH]; intros x r; cbn [PyStr.split_go].
  - intros H; inversion H; subst. now exists "".
  - destruct (PyStr.starts_with sep (String c s)).
    + intros H; inversion H; subst. now exists (String c s).
    + destruct (PyStr.split_go sep 0 s) as [|x0 r0] eqn:Hs.
      * intros H; inversion H; subst.
        exfalso. now apply (split_go_nonempty sep s 0).
      * intros H; inversion H; subst.
        destruct (IH _ _ eq_refl) as (rest & Hrest).
        exists rest. cbn [append]. now rewrite <- Hrest.
Qed.

Lemma contains_cons (p : string) (c : ascii) (s : string) :
  PyStr.contains p (String c s)
  = PyStr.starts_with p (String c s) || PyStr.contains p s.
Proof. reflexivity. Qed.

Lemma contains_empty (p : string) :
  PyStr.contains p "" = match p with "" => true | _ => false end.
Proof. destruct p; reflexivity. Qed.

(** No piece holds the separator. *)
Lemma split_go_pieces_clean (sep : string) (s : string) :
  sep <> "" ->
  forall k, Forall (fun x => PyStr.contains sep x = false)
                   (PyStr.split_go sep k s).
Proof.
  intros Hne.
  assert (He : PyStr.contains sep "" = false).
  { rewrite contains_empty. destruct sep; [contradiction|reflexivity]. }
  induction s as [|c s IH]; intros k; cbn [PyStr.split_go].
  - constructor; [exact He|constructor].
  - destruct k as [|k]; [|apply IH].
    destruct (PyStr.starts_with sep (String c s)) eqn:Hst.
    + constructor; [exact He|apply IH].
    + specialize (IH 0).
      destruct (PyStr.split_go sep 0 s) as [|x r] eqn:Hs.
      * exfalso. now apply (split_go_nonempty sep s 0).
      * inversion IH as [|? ? Hx Hr]; subst.
        constructor; [|exact Hr].
        rewrite contains_cons, Hx, orb_false_r.
        destruct (PyStr.starts_with sep (String c x)) eqn:Hcx; [|reflexivity].
        destruct (split_head_prefix sep s x r Hs) as (rest & ->).
        change (String c (x ++ rest)) with (String c x ++ rest) in Hst.
        rewrite (HistoryFacts.starts_with_app_l _ _ _ Hcx) in Hst.
        discriminate.
Qed.

(** A text without the separator is its own single piece. *)
Lemma split_clean (sep x : string) :
  PyStr.contains sep x = false -> PyStr.split sep x = [x].
Proof.
  unfold PyStr.split. induction x as [|c x IH]; [reflexivity|].
  rewrite contains_cons. intros H. apply orb_false_iff in H as [Hst Hc].
  cbn [PyStr.split_go]. rewrite Hst, (IH Hc). reflexivity.
Qed.

(** A separator found across the end of [y] uses the next character. *)
Lemma starts_with_straddle (sep : string) :
  forall y c t,
    PyStr.starts_with sep (y ++ String c t) = true ->
    PyStr.starts_with sep y = true \/ PyStr.has_char c sep = true.
Proof.
  induction sep as [|a sep IH]; intros y c t; [now left|].
  destruct y as [|d y]; cbn [append PyStr.starts_with PyStr.has_char].
  - intros H. apply andb_true_iff in H as [H _]. right. now rewrite H.
  - intros H. apply andb_true_iff in H as [Had H].
    destruct (IH y c t H) as [Hy|Hc].
    + left. now rewrite Had, Hy.
    + right. rewrite Hc. apply orb_true_r.
Qed.

(** A clean text followed by a character foreign to the separator: the
    text and the character join the first piece of what follows. *)
Lemma split_clean_prefix (sep x : string) (c : ascii) (t : string) :
  PyStr.contains sep x = false ->
  PyStr.has_char c sep = false ->
  PyStr.split sep (x ++ String c t)
  = match PyStr.split sep t with
    | h :: tl => (x ++ String c h) :: tl
    | [] => []
    end.
Proof.
  intros Hx Hc. unfold PyStr.split.
  assert (Hstart : forall y, PyStr.contains sep y = false ->
                             PyStr.starts_with sep (y ++ String c t) = false).
  { intros y Hy.
    destruct (PyStr.starts_with sep (y ++ String c t)) eqn:E; [|reflexivity].
    destruct (starts_with_straddle sep y c t E) as [H|H].
    - destruct y as [|d y].
      + destruct sep; [discriminate Hy|discriminate H].
      + rewrite contains_cons, H in Hy. discriminate.
    - rewrite H in Hc. discriminate. }
  induction x as [|d x IH].
  - cbn [append]. cbn [PyStr.split_go].
    pose proof (Hstart "" Hx) as H0. cbn [append] in H0. rewrite H0.
    destruct (PyStr.split_go sep 0 t) as [|h tl] eqn:Ht; [|reflexivity].
    exfalso. now apply (split_go_nonempty sep t 0).
  - cbn [append]. cbn [PyStr.split_go].
    change (String d (x ++ String c t)) with (String d x ++ String c t).
    rewrite (Hstart (String d x) Hx).
    rewrite contains_cons in Hx. apply orb_false_iff in Hx as [_ Hx].
    rewrite (IH Hx).
    destruct (PyStr.split_go sep 0 t) as [|h tl] eqn:Ht; [|reflexivity].
    exfalso. now apply (split_go_nonempty sep t 0).
Qed.

(** The pieces are made of characters of the text. *)
Lemma split_go_no_newline (sep : string) (s : string) :
  PyStr.no_newline s = true ->
  forall k, Forall (fun x => PyStr.no_newline x = true)
                   (PyStr.split_go sep k s).
Proof.
  induction s as [|c s IH]; intros H k; cbn [PyStr.split_go].
  - constructor; [reflexivity|constructor].
  - rewrite no_newline_cons in H. apply andb_true_iff in H as [Hc H].
    destruct k as [|k]; [|now apply IH].
    destruct (PyStr.starts_with sep (String c s)).
    + constructor; [reflexivity|now apply IH].
    + specialize (IH H 0).
      destruct (PyStr.split_go sep 0 s) as [|x r].
      * constructor; [|constructor]. now rewrite no_newline_cons, Hc.
      * inversion IH; subst. constructor; [|assumption].
        rewrite no_newline_cons, Hc. assumption.
Qed.

Lemma lines_cons (c : ascii) (s : string) :
  PyStr.split_go nl 0 (String c s)
  = if Ascii.eqb PyStr.newline c then "" :: PyStr.split_go nl 0 s
    else match PyStr.split_go nl 0 s with
         | x :: r => String c x :: r
         | [] => [String c ""]
         end.
Proof.
  cbn [PyStr.split_go]. unfold nl at 1.
  cbn [PyStr.starts_with]. rewrite andb_true_r.
  reflexivity.
Qed.

(** The lines of a text hold no newline. *)
Lemma lines_no_newline (s : string) :
  Forall (fun x => PyStr.no_newline x = true) (PyStr.split nl s).
Proof.
  unfold PyStr.split.
  induction s as [|c s IH].
  - constructor; [reflexivity|constructor].
  - rewrite lines_cons.
    destruct (Ascii.eqb PyStr.newline c) eqn:E.
    + constructor; [reflexivity|exact IH].
    + rewrite Ascii.eqb_sym in E.
      destruct (PyStr.split_go nl 0 s) as [|x r].
      * constructor; [|constructor].
        rewrite no_newline_cons. now rewrite E.
      * inversion IH; subst. constructor; [|assumption].
        rewrite no_newline_cons. rewrite E. assumption.
Qed.

(** A text that ends with a newline has one more, empty, line. *)
Lemma lines_trailing_newline (x : string) :
  PyStr.split nl (x ++ nl) = (PyStr.split nl x ++ [""])%list.
Proof.
  unfold PyStr.split.
  induction x as [|c x IH]; [reflexivity|].
  cbn [append]. rewrite !lines_cons, IH.
  destruct (Ascii.eqb PyStr.newline c); [reflexivity|].
  destruct (PyStr.split_go nl 0 x) as [|h tl] eqn:Hx; [|reflexivity].
  exfalso. now apply (split_go_nonempty nl x 0).
Qed.

(** *** Splitting the filtered text again *)

Lemma marker_nonempty : marker <> "".
Proof. discriminate. Qed.

Lemma join_cons (sep x : string) (l : list string) :
  l <> [] -> PyStr.join sep (x :: l) = x ++ sep ++ PyStr.join sep l.
Proof. destruct l; [contradiction|reflexivity]. Qed.

(** The text built from the kept sections splits into an empty piece
    followed by those sections, each but the last with the newline of
    the join. *)
Lemma split_joined_sections (kept : list string) :
  kept <> [] ->
  Forall (fun x => PyStr.contains marker x = false) kept ->
  PyStr.split marker (PyStr.join nl (map (fun x => marker ++ x) kept))
  = "" :: with_separators kept.
Proof.
  set (f := fun x => marker ++ x).
  induction kept as [|k kept IH]; [contradiction|].
  intros _ Hclean. inversion Hclean as [|? ? Hk Hrest]; subst.
  destruct kept as [|k2 kept].
  - cbn [map PyStr.join with_separators]. unfold f.
    rewrite (split_separator_first _ _ marker_nonempty).
    now rewrite (split_clean _ _ Hk).
  - change (map f (k :: k2 :: kept)) with (f k :: map f (k2 :: kept)).
    rewrite join_cons by discriminate.
    unfold f at 1. rewrite app_assoc_string.
    rewrite (split_separator_first _ _ marker_nonempty).
    set (J := PyStr.join nl (map f (k2 :: kept))) in *.
    change (nl ++ J) with (String PyStr.newline J).
    rewrite (split_clean_prefix marker k PyStr.newline J Hk eq_refl).
    rewrite (IH ltac:(discriminate) Hrest).
    reflexivity.
Qed.

(** *** The duplicate test does not see a trailing newline *)

Lemma starts_with_trailing_newline (v : string) :
  PyStr.no_newline v = true ->
  forall y, PyStr.starts_with v (y ++ nl) = PyStr.starts_with v y.
Proof.
  induction v as [|a v IH]; intros Hv y; [reflexivity|].
  rewrite no_newline_cons in Hv. apply andb_true_iff in Hv as [Ha Hv].
  destruct y as [|d y]; cbn [append PyStr.starts_with].
  - unfold nl. cbn [PyStr.starts_with].
    apply negb_true_iff in Ha. unfold PyStr.newline in Ha. now rewrite Ha.
  - now rewrite (IH Hv).
Qed.

Lemma contains_trailing_newline (v y : string) :
  PyStr.no_newline v = true ->
  PyStr.contains v (y ++ nl) = PyStr.contains v y.
Proof.
  intros Hv. induction y as [|d y IH].
  - cbn [append]. unfold nl at 1. rewrite contains_cons. fold nl.
    change nl with ("" ++ nl) at 1.
    rewrite (starts_with_trailing_newline v Hv "").
    cbn [PyStr.contains]. now rewrite orb_false_r, orb_diag.
  - cbn [append]. rewrite !contains_cons, IH.
    change (String d (y ++ nl)) with (String d y ++ nl).
    now rewrite (starts_with_trailing_newline v Hv).
Qed.

Lemma lower_newline (x : string) :
  PyStr.lower (x ++ nl) = PyStr.lower x ++ nl.
Proof. now rewrite lower_app. Qed.

Lemma nth_error_forall {X} (P : X -> Prop) (l : list X) (n : nat) (x : X) :
  Forall P l -> nth_error l n = Some x -> P x.
Proof.
  intros HF Hn. apply nth_error_In in Hn.
  rewrite Forall_forall in HF. now apply HF.
Qed.

Lemma identifier_hits_trailing_newline (identifier x : string) :
  PyStr.no_newline identifier = true ->
  identifier_hits (PyStr.lower (x ++ nl)) identifier
  = identifier_hits (PyStr.lower x) identifier.
Proof.
  intros Hi. unfold identifier_hits. rewrite lower_newline.
  destruct (nth_error (PyStr.split ":" identifier) 1) as [v|] eqn:Hv;
    [|reflexivity].
  rewrite contains_trailing_newline; [reflexivity|].
  eapply (nth_error_forall (fun x => PyStr.no_newline x = true));
    [|exact Hv].
  now apply split_go_no_newline.
Qed.

Lemma section_field_empty_line (marker_lower field : string)
      (acc : option string) :
  marker_lower <> "" ->
  section_field marker_lower field acc "" = acc.
Proof.
  intros H. unfold section_field. cbn [PyStr.lower].
  rewrite contains_empty. destruct marker_lower; [contradiction|reflexivity].
Qed.

Lemma section_subject_trailing_newline (x : string) :
  section_subject (x ++ nl) = section_subject x.
Proof.
  unfold section_subject. rewrite lines_trailing_newline, fold_left_app.
  cbn [fold_left]. apply section_field_empty_line. discriminate.
Qed.

Lemma section_sender_trailing_newline (x : string) :
  section_sender (x ++ nl) = section_sender x.
Proof.
  unfold section_sender. rewrite lines_trailing_newline, fold_left_app.
  cbn [fold_left]. apply section_field_empty_line. discriminate.
Qed.

Lemma is_duplicate_trailing_newline (k : seen) (x : string) :
  single_line k ->
  is_duplicate k (x ++ nl) = is_duplicate k x.
Proof.
  intros (Hids & Hcs & Hcd). unfold is_duplicate.
  rewrite section_subject_trailing_newline, section_sender_trailing_newline.
  f_equal; [f_equal|].
  - induction Hids as [|i ids Hi _ IH]; [reflexivity|].
    cbn [existsb]. now rewrite IH, (identifier_hits_trailing_newline i x Hi).
  - destruct (current_subject k) as [cs|]; [|reflexivity].
    destruct (current_sender k) as [cd|]; [|reflexivity].
    cbn [no_newline_opt] in Hcs, Hcd.
    rewrite lower_newline.
    now rewrite (contains_trailing_newline cs _ Hcs),
                (contains_trailing_newline cd _ Hcd).
Qed.

(** *** What the scan of the history keeps *)

Lemma field_after_no_newline (field line v : string) :
  PyStr.no_newline line = true ->
  field_after field line = Some v ->
  PyStr.no_newline v = true.
Proof.
  intros Hl. unfold field_after.
  destruct (nth_error (PyStr.split field line) 1) as [part|] eqn:Hp;
    [|discriminate].
  intros H; inversion H; subst. apply no_newline_strip.
  pose proof (lines_no_newline part) as Hlines.
  destruct (PyStr.split nl part) as [|x r]; [reflexivity|].
  now inversion Hlines.
Qed.

Lemma single_line_add (k : seen) (i : string) (cs cd : option string)
      (pairs : list (string * string)) :
  single_line k ->
  PyStr.no_newline i = true ->
  no_newline_opt cs = true ->
  no_newline_opt cd = true ->
  single_line {| sql_identifiers := (sql_identifiers k ++ [i])%list;
                 sql_subject_sender_pairs := pairs;
                 current_subject := cs;
                 current_sender := cd |}.
Proof.
  intros (Hids & _ & _) Hi Hcs Hcd. repeat split; cbn; try assumption.
  apply Forall_app. split; [assumption|]. now constructor.
Qed.

Lemma see_subject_single_line (line : string) (k : seen) :
  PyStr.no_newline line = true ->
  single_line k -> single_line (see_subject line k).
Proof.
  intros Hl Hk. unfold see_subject.
  destruct (PyStr.contains "subject:" (PyStr.lower line)); [|exact Hk].
  destruct (field_after "Subject:" line) as [v|] eqn:Hv; [|exact Hk].
  destruct (PyStr.truthy v); [|exact Hk].
  pose proof (field_after_no_newline _ _ _ Hl Hv) as Hn.
  apply single_line_add; try assumption.
  - rewrite no_newline_app, no_newline_lower, Hn. reflexivity.
  - cbn. now rewrite no_newline_lower.
  - apply Hk.
Qed.

Lemma see_sender_single_line (line : string) (k : seen) :
  PyStr.no_newline line = true ->
  single_line k -> single_line (see_sender line k).
Proof.
  intros Hl Hk. unfold see_sender.
  destruct (PyStr.contains "from:" (PyStr.lower line)); [|exact Hk].
  destruct (field_after "From:" line) as [v|] eqn:Hv; [|exact Hk].
  destruct (PyStr.truthy v); [|exact Hk].
  pose proof (field_after_no_newline _ _ _ Hl Hv) as Hn.
  apply single_line_add; try assumption.
  - rewrite no_newline_app, no_newline_lower, Hn. reflexivity.
  - apply Hk.
  - cbn. now rewrite no_newline_lower.
Qed.

Lemma see_email_prefix_single_line (line : string) (k : seen) :
  single_line k -> single_line (see_email_prefix line k).
Proof.
  intros Hk. unfold see_email_prefix.
  destruct (PyStr.contains "email:" (PyStr.lower line)); [|exact Hk].
  destruct (current_subject k) as [cs|] eqn:Hcs; [|exact Hk].
  destruct (PyStr.truthy cs); [|exact Hk].
  assert (Hn : PyStr.no_newline cs = true).
  { destruct Hk as (_ & H & _). now rewrite Hcs in H. }
  rewrite <- Hcs. apply single_line_add; try assumption; try apply Hk.
Qed.

Lemma scan_history_single_line (sql_history : string) :
  single_line (scan_history sql_history).
Proof.
  unfold scan_history.
  assert (Hstart : single_line nothing_seen).
  { repeat split; constructor. }
  revert Hstart. generalize nothing_seen.
  induction (lines_no_newline sql_history) as [|line lines Hl _ IH];
    intros k Hk; cbn [fold_left]; [exact Hk|].
  apply IH. unfold see_line.
  now apply see_email_prefix_single_line, see_sender_single_line,
            see_subject_single_line.
Qed.

(** *** Deduplicating twice *)

Lemma filter_with_separators (p : string -> bool) (kept : list string) :
  (forall x, p (x ++ nl) = p x) ->
  Forall (fun x => p x = true) kept ->
  filter p (with_separators kept) = with_separators kept.
Proof.
  intros Hnl. induction 1 as [|k kept Hk Hrest IH]; [reflexivity|].
  destruct kept as [|k2 kept].
  - cbn [with_separators filter]. now rewrite Hk.
  - change (with_separators (k :: k2 :: kept))
      with ((k ++ nl) :: with_separators (k2 :: kept)).
    cbn [filter]. now rewrite Hnl, Hk, IH.
Qed.

Lemma deduplicate_memory_text (h v : string) :
  blank v = false -> blank h = false ->
  snd (_deduplicate_memory h v)
  = PyStr.join nl (map (fun x => marker ++ x) (kept_sections h v)).
Proof.
  intros Hv Hh. unfold _deduplicate_memory. rewrite Hv, Hh.
  destruct (map _ (kept_sections h v)); reflexivity.
Qed.

Lemma joined_sections_not_blank (kept : list string) :
  kept <> [] ->
  blank (PyStr.join nl (map (fun x => marker ++ x) kept)) = false.
Proof.
  intros Hne. destruct kept as [|k kept]; [contradiction|].
  assert (Hs : exists rest,
             PyStr.join nl (map (fun x => marker ++ x) (k :: kept))
             = marker ++ rest).
  { destruct kept as [|k2 kept].
    - now exists k.
    - cbn [map]. rewrite join_cons by discriminate.
      rewrite app_assoc_string. eauto. }
  destruct Hs as (rest & ->). unfold blank.
  rewrite truthy_strip, any_nonspace_app. reflexivity.
Qed.

Lemma kept_sections_again (h : string) (kept : list string) :
  Forall (fun x => PyStr.contains marker x = false) kept ->
  Forall (fun x => negb (negb (PyStr.truthy (PyStr.strip x)))
                   && negb (is_duplicate (scan_history h) x) = true) kept ->
  kept_sections h (PyStr.join nl (map (fun x => marker ++ x) kept))
  = with_separators kept.
Proof.
  intros Hclean Hkept. unfold kept_sections.
  destruct kept as [|k kept]; [reflexivity|].
  rewrite split_joined_sections by (discriminate || assumption).
  cbn [filter]. change (PyStr.strip "") with "". cbn [PyStr.truthy negb andb].
  apply filter_with_separators; [|exact Hkept].
  intros x. rewrite truthy_strip_newline.
  now rewrite (is_duplicate_trailing_newline _ x (scan_history_single_line h)).
Qed.

Lemma kept_sections_facts (h v : string) :
  Forall (fun x => PyStr.contains marker x = false) (kept_sections h v)
  /\ Forall (fun x => negb (negb (PyStr.truthy (PyStr.strip x)))
                      && negb (is_duplicate (scan_history h) x) = true)
            (kept_sections h v).
Proof.
  unfold kept_sections. split.
  - apply Forall_forall. intros x Hx. apply filter_In in Hx as [Hx _].
    pose proof (split_go_pieces_clean marker v marker_nonempty 0) as Hc.
    rewrite Forall_forall in Hc. now apply Hc.
  - apply Forall_forall. intros x Hx. now apply filter_In in Hx as [_ Hx].
Qed.

Lemma with_separators_short (kept : list string) :
  List.length kept <= 1 -> with_separators kept = kept.
Proof.
  destruct kept as [|k [|k2 kept]]; cbn; intros H;
    [reflexivity|reflexivity|lia].
Qed.

(** The returned text itself is not always the same. With one email in
    the history and three in the recall, the first pass drops the copy
    and joins the two survivors with a newline; the second pass, run on
    that text, keeps the same two sections and returns a text one
    newline longer. *)
Lemma second_deduplication_differs :
  String.eqb
    (snd (_deduplicate_memory sample_history
            (snd (_deduplicate_memory sample_history sample_recall))))
    (snd (_deduplicate_memory sample_history sample_recall))
  = false
  /\ List.length (kept_sections sample_history sample_recall) = 2
  /\ nth 0 (kept_sections sample_history
               (snd (_deduplicate_memory sample_history sample_recall))) ""
     = nth 0 (kept_sections sample_history sample_recall) "" ++ nl
  /\ String.length
       (snd (_deduplicate_memory sample_history
               (snd (_deduplicate_memory sample_history sample_recall))))
     = S (String.length
            (snd (_deduplicate_memory sample_history sample_recall))).
Proof. vm_compute. repeat split. Qed.

(** A second deduplication against the same history drops nothing more
    and keeps nothing new: it finds the sections the first one kept, in
    the same order, each but the last with the newline by which the
    first pass joined them, and joins them again. *)
Lemma deduplicate_memory_twice (h v : string) :
  (blank v = true \/ blank h = true ->
   snd (_deduplicate_memory h (snd (_deduplicate_memory h v)))
   = snd (_deduplicate_memory h v))
  /\ (blank v = false -> blank h = false ->
      snd (_deduplicate_memory h v)
      = PyStr.join nl (map (fun x => marker ++ x) (kept_sections h v))
      /\ kept_sections h (snd (_deduplicate_memory h v))
         = with_separators (kept_sections h v)
      /\ snd (_deduplicate_memory h (snd (_deduplicate_memory h v)))
         = PyStr.join nl (map (fun x => marker ++ x)
                              (with_separators (kept_sections h v)))
      /\ (List.length (kept_sections h v) <= 1 ->
          snd (_deduplicate_memory h (snd (_deduplicate_memory h v)))
          = snd (_deduplicate_memory h v))).
Proof.
  split.
  - intros Hblank. unfold _deduplicate_memory at 2 3.
    destruct (blank v) eqn:Hv.
    + cbn [snd]. unfold _deduplicate_memory. reflexivity.
    + destruct Hblank as [Hb|Hh]; [discriminate|]. rewrite Hh. cbn [snd].
      unfold _deduplicate_memory. now rewrite Hv, Hh.
  - intros Hv Hh.
    pose proof (deduplicate_memory_text h v Hv Hh) as Hout.
    destruct (kept_sections_facts h v) as [Hclean Hkept].
    pose proof (kept_sections_again h _ Hclean Hkept) as Hagain.
    rewrite <- Hout in Hagain.
    assert (Htwice :
      snd (_deduplicate_memory h (snd (_deduplicate_memory h v)))
      = PyStr.join nl (map (fun x => marker ++ x)
                           (with_separators (kept_sections h v)))).
    { destruct (kept_sections h v) as [|k kept] eqn:HK.
      - rewrite Hout. reflexivity.
      - rewrite <- Hagain. apply deduplicate_memory_text; [|exact Hh].
        rewrite Hout. now apply joined_sections_not_blank. }
    repeat split; try assumption.
    intros Hshort. rewrite Htwice, Hout.
    now rewrite (with_separators_short _ Hshort).
Qed.

(** *** The recall set *)

Lemma rstrip_trailing_newline (y : string) :
  PyStr.rstrip (y ++ nl) = PyStr.rstrip y.
Proof.
  induction y as [|c y IH]; [reflexivity|].
  cbn [append PyStr.rstrip]. now rewrite IH.
Qed.

Lemma strip_trailing_newline (x : string) :
  PyStr.strip (x ++ nl) = PyStr.strip x.
Proof.
  unfold PyStr.strip. induction x as [|c x IH]; [reflexivity|].
  cbn [append PyStr.lstrip]. destruct (PyStr.is_space c); [exact IH|].
  change (String c (x ++ nl)) with (String c x ++ nl).
  apply rstrip_trailing_newline.
Qed.

Lemma map_strip_with_separators (l : list string) :
  map PyStr.strip (with_separators l) = map PyStr.strip l.
Proof.
  induction l as [|x l IH]; [reflexivity|].
  destruct l as [|y l]; [reflexivity|].
  change (with_separators (x :: y :: l))
    with ((x ++ nl) :: with_separators (y :: l)).
  cbn [map] in *. now rewrite strip_trailing_newline, IH.
Qed.

Lemma Forall_with_separators (P : string -> Prop) (l : list string) :
  (forall x, P x -> P (x ++ nl)) ->
  Forall P l -> Forall P (with_separators l).
Proof.
  intros Hnl. induction 1 as [|x l Hx Hl IH]; [constructor|].
  destruct l as [|y l]; [now constructor|].
  change (with_separators (x :: y :: l))
    with ((x ++ nl) :: with_separators (y :: l)).
  constructor; [now apply Hnl|exact IH].
Qed.

Lemma with_separators_nonempty (l : list string) :
  l <> [] -> with_separators l <> [].
Proof. destruct l as [|x [|y l]]; [contradiction| |]; discriminate. Qed.

(** The recall set of the text made of the sections [l]: those
    sections, each without the white space around it. *)
Lemma recall_set_joined (l : list string) :
  Forall (fun x => PyStr.contains marker x = false) l ->
  Forall (fun x => PyStr.truthy (PyStr.strip x) = true) l ->
  recall_set (PyStr.join nl (map (fun x => marker ++ x) l))
  = map PyStr.strip l.
Proof.
  intros Hclean Hfull. unfold recall_set.
  destruct l as [|k l]; [reflexivity|].
  rewrite split_joined_sections by (discriminate || assumption).
  cbn [filter]. change (PyStr.strip "") with "". cbn [PyStr.truthy].
  rewrite filter_with_separators;
    [apply map_strip_with_separators|apply truthy_strip_newline|exact Hfull].
Qed.

Lemma kept_sections_full (h v : string) :
  Forall (fun x => PyStr.truthy (PyStr.strip x) = true) (kept_sections h v).
Proof.
  destruct (kept_sections_facts h v) as [_ Hkept].
  eapply Forall_impl; [|exact Hkept]. cbn beta. intros x Hx.
  apply andb_true_iff in Hx as [Hx _]. now rewrite negb_involutive in Hx.
Qed.

(** C5. Deduplication is idempotent on the recall set: for every
    history and recall, deduplicating the first filtered recall again
    against the same history gives back the history and a text that
    holds the same recalled emails in the same order; when both inputs
    hold something, these are the sections the first pass kept. *)
Theorem deduplicate_memory_idempotent (h v : string) :
  recall_set (snd (_deduplicate_memory h (snd (_deduplicate_memory h v))))
  = recall_set (snd (_deduplicate_memory h v))
  /\ fst (_deduplicate_memory h (snd (_deduplicate_memory h v)))
     = fst (_deduplicate_memory h v)
  /\ (blank v = false -> blank h = false ->
      recall_set (snd (_deduplicate_memory h v))
      = map PyStr.strip (kept_sections h v)).
Proof.
  destruct (deduplicate_memory_twice h v) as [Hblank Hfull].
  assert (Hfst : forall a b, blank a = false ->
                             fst (_deduplicate_memory a b) = a).
  { intros a b Ha. unfold _deduplicate_memory.
    destruct (blank b); [reflexivity|]. rewrite Ha.
    destruct (map _ (kept_sections a b)); reflexivity. }
  destruct (blank v) eqn:Hv; [|destruct (blank h) eqn:Hh].
  - rewrite (Hblank (or_introl eq_refl)).
    split; [reflexivity|]. split; [|discriminate].
    unfold _deduplicate_memory at 2 3. rewrite Hv. cbn [snd fst].
    unfold _deduplicate_memory. reflexivity.
  - rewrite (Hblank (or_intror eq_refl)).
    split; [reflexivity|]. split; [|discriminate].
    unfold _deduplicate_memory at 2 3. rewrite Hv, Hh. cbn [snd fst].
    unfold _deduplicate_memory. now rewrite Hv, Hh.
  - destruct (Hfull eq_refl eq_refl) as (Hout & _ & Htwice & _).
    destruct (kept_sections_facts h v) as [Hclean _].
    pose proof (kept_sections_full h v) as Hkept.
    assert (Hfirst : recall_set (snd (_deduplicate_memory h v))
                     = map PyStr.strip (kept_sections h v)).
    { rewrite Hout. now apply recall_set_joined. }
    split; [|split].
    + rewrite Hfirst, Htwice.
      rewrite recall_set_joined.
      * apply map_strip_with_separators.
      * apply Forall_with_separators; [|exact Hclean].
        intros x Hx.
        now rewrite (contains_trailing_newline marker x eq_refl).
      * apply Forall_with_separators; [|exact Hkept].
        intros x Hx. now rewrite truthy_strip_newline.
    + now rewrite !Hfst by exact Hh.
    + intros _ _. exact Hfirst.
Qed.

(** With one email in the history and three in the recall: both passes
    hold the two emails that are not in the history. *)
Lemma deduplicate_memory_idempotent_witness :
  recall_set
    (snd (_deduplicate_memory sample_history
            (snd (_deduplicate_memory sample_history sample_recall))))
  = recall_set (snd (_deduplicate_memory sample_history sample_recall))
  /\ List.length
       (recall_set (snd (_deduplicate_memory sample_history sample_recall)))
     = 2.
Proof.
  split.
  - apply (proj1 (deduplicate_memory_idempotent sample_history sample_recall)).
  - reflexivity.
Defined.

End DedupFacts.
